(** * Blue Book PDF Analyzer: a shallow embedding of [the-blue-book-v1.py]

    The script has three functions and a module-level pipeline:
    - [extract_pdf_text]      (lines 18-30),
    - [call_gemini_api]       (lines 33-51),
    - [parse_gemini_response] (lines 54-109),
    - the "Analyze PDFs" branch (lines 112-162).

    Python values are dynamically typed, so the embedding has one type
    [pyval] of values, an error type [res] for raised exceptions, and a
    model of the part of the [re] module that the script calls
    ([re.search], [re.findall], flags [IGNORECASE] and [DOTALL]). *)

From Stdlib Require Import String Ascii DecimalString.
From Stdlib Require Import List Bool Arith NArith ZArith Lia.
Import ListNotations.

Set Implicit Arguments.
Set Warnings "-register-all".

(* ================================================================== *)
(** ** Python strings *)

(** A Python [str] is a sequence of Unicode code points. *)
Definition str := list N.

(** The code points of an ASCII literal of the source. *)
Definition cp (s : string) : str :=
  map N_of_ascii (list_ascii_of_string s).
Arguments cp s%_string.

Fixpoint str_eqb (a b : str) : bool :=
  match a, b with
  | [], [] => true
  | x :: a', y :: b' => (x =? y)%N && str_eqb a' b'
  | _, _ => false
  end.

Module Str.

(** [str.isspace] on one code point, which is also what [\s] matches in
    a [str] pattern: the code points of bidirectional type WS, B or S
    and of category Zs. *)
Definition isspace (c : N) : bool :=
  ((9 <=? c) && (c <=? 13) || (28 <=? c) && (c <=? 32)
   || (c =? 133) || (c =? 160) || (c =? 5760)
   || (8192 <=? c) && (c <=? 8202)
   || (c =? 8232) || (c =? 8233) || (c =? 8239) || (c =? 8287)
   || (c =? 12288))%N.

Fixpoint lstrip (s : str) : str :=
  match s with
  | c :: t => if isspace c then lstrip t else s
  | [] => []
  end.

Definition rstrip (s : str) : str := rev (lstrip (rev s)).

(** [s.strip()] *)
Definition strip (s : str) : str := rstrip (lstrip s).

Fixpoint startswith (p s : str) : bool :=
  match p, s with
  | [], _ => true
  | a :: p', b :: s' => (a =? b)%N && startswith p' s'
  | _ :: _, [] => false
  end.

(** [needle in hay] *)
Fixpoint contains (needle hay : str) : bool :=
  startswith needle hay
  || match hay with
     | [] => false
     | _ :: t => contains needle t
     end.

(** [str(n)] for an [int]. *)
Definition of_int (z : Z) : str :=
  cp (NilZero.string_of_int (Z.to_int z)).

Definition is_ascii_upper (c : N) : bool := ((65 <=? c) && (c <=? 90))%N.
Definition is_ascii_lower (c : N) : bool := ((97 <=? c) && (c <=? 122))%N.
Definition is_ascii_letter (c : N) : bool :=
  is_ascii_upper c || is_ascii_lower c.

End Str.

(* ================================================================== *)
(** ** Values, exceptions *)

Inductive pyval : Type :=
| PyNone
| PyBool (b : bool)
| PyInt (z : Z)
| PyFloat (nonzero : bool)   (* a float, kept as its truth value *)
| PyStr (s : str)
| PyList (l : list pyval)
| PyTuple (l : list pyval)
| PyDict (d : list (str * pyval)).

(** The exceptions that the calls of the script can raise. All of them
    are subclasses of [Exception]. *)
Inductive exn : Type :=
| TypeError
| IndexError
| KeyError
| AttributeError
| RequestException (msg : str)     (* requests.post: no response obtained *)
| HTTPError (status : Z)           (* response.raise_for_status() *)
| JSONDecodeError.                 (* response.json() *)

Inductive res (A : Type) : Type :=
| Ok (a : A)
| Raise (e : exn).
Arguments Raise {A} e.

Definition bind {A B} (x : res A) (f : A -> res B) : res B :=
  match x with
  | Ok a => f a
  | Raise e => Raise e
  end.

Notation "x <- c1 ;; c2" := (bind c1 (fun x => c2))
  (at level 61, c1 at next level, right associativity).

(** Truth value of an object, as tested by [if] and [not]. *)
Definition truthy (v : pyval) : bool :=
  match v with
  | PyNone => false
  | PyBool b => b
  | PyInt z => negb (z =? 0)%Z
  | PyFloat nz => nz
  | PyStr s => negb (length s =? 0)
  | PyList l => negb (length l =? 0)
  | PyTuple l => negb (length l =? 0)
  | PyDict d => negb (length d =? 0)
  end.

Module Dict.

(** A [dict] with [str] keys, in insertion order, keys unique. *)
Definition t := list (str * pyval).

Fixpoint get (k : str) (d : t) : option pyval :=
  match d with
  | [] => None
  | (k', v) :: d' => if str_eqb k k' then Some v else get k d'
  end.

(** [d[k] = v]: an existing key keeps its place, a new one goes last. *)
Fixpoint set (k : str) (v : pyval) (d : t) : t :=
  match d with
  | [] => [(k, v)]
  | (k', v') :: d' =>
      if str_eqb k k' then (k', v) :: d' else (k', v') :: set k v d'
  end.

End Dict.

(* ================================================================== *)
(** ** The [re] module

    Patterns are kept as syntax trees, one constructor per construct of
    the pattern language that the script uses; flags are given at the
    call, as in Python. Matching is the backtracking search of [re]:
    alternatives are tried left to right, a greedy quantifier tries one
    more iteration before it tries to stop, a lazy one the other way
    round, and the first success is the match. *)

(** The two tables of the Unicode database that the script reaches and
    that are not spelled out here: category Nd (for [\d]) and the full
    lower-casing of [str.lower]. *)
Record Unicode : Type := {
  isdecimal : N -> bool;
  lower : str -> str
}.

Module Re.

Inductive item : Type :=
| IChar (c : N)                  (* a character of a set *)
| IRange (lo hi : N)             (* lo-hi *)
| ISpace                         (* \s *)
| IDigit.                        (* \d *)

Inductive atom : Type :=
| ALit (c : N)                   (* a literal character *)
| AAny                           (* . *)
| ASpace                         (* \s *)
| ADigit                         (* \d *)
| ASet (negated : bool) (items : list item).   (* [...] and [^...] *)

Inductive regex : Type :=
| Eps
| Atom (a : atom)
| Seq (r1 r2 : regex)
| Alt (r1 r2 : regex)            (* r1|r2 *)
| Star (greedy : bool) (r : regex)   (* r* and r*? *)
| Group (n : nat) (r : regex)    (* the n-th capturing group *)
| Lookahead (r : regex)          (* (?=r) *)
| Dollar.                        (* $ *)

(** Derived quantifiers. *)
Definition plus (r : regex) : regex := Seq r (Star true r).     (* r+ *)
Definition opt (r : regex) : regex := Alt r Eps.                (* r? *)
Definition rep_1_2 (r : regex) : regex := Seq r (opt r).        (* r{1,2} *)
Definition rep_4 (r : regex) : regex := Seq r (Seq r (Seq r r)). (* r{4} *)

Fixpoint lit_str (s : str) : regex :=
  match s with
  | [] => Eps
  | [c] => Atom (ALit c)
  | c :: t => Seq (Atom (ALit c)) (lit_str t)
  end.

(** A literal word of a pattern. *)
Definition lit (s : string) : regex := lit_str (cp s).
Arguments lit s%_string.

Fixpoint ngroups (r : regex) : nat :=
  match r with
  | Eps | Atom _ | Dollar => 0
  | Seq a b | Alt a b => Nat.max (ngroups a) (ngroups b)
  | Star _ a | Lookahead a => ngroups a
  | Group n a => Nat.max n (ngroups a)
  end.

Record flags : Type := { ignorecase : bool; dotall : bool }.

Definition NOFLAG : flags := {| ignorecase := false; dotall := false |}.
Definition IGNORECASE : flags := {| ignorecase := true; dotall := false |}.
Definition DOTALL : flags := {| ignorecase := false; dotall := true |}.

(** *** Case-insensitive comparison

    With [IGNORECASE] on a [str] pattern the engine lower-cases the
    subject character with the simple case mapping and, for a range,
    also upper-cases the result; a literal whose lower case has other
    case variants matches those too. The mappings below are exact on
    every code point whose image is an ASCII letter (U+0130 and U+212A
    lower to [i] and [k]; U+0131 and U+017F upper to [I] and [S]) and
    the identity elsewhere, which is all that a pattern made of ASCII
    characters can observe; every pattern of the script is. *)
Definition sre_lower (c : N) : N :=
  if Str.is_ascii_upper c then (c + 32)%N
  else if (c =? 304)%N then 105%N
  else if (c =? 8490)%N then 107%N
  else c.

Definition sre_upper (c : N) : N :=
  if Str.is_ascii_lower c then (c - 32)%N
  else if (c =? 305)%N then 73%N
  else if (c =? 383)%N then 83%N
  else c.

(** Other lower-case code points with the same upper case. *)
Definition equivalents (lo : N) : list N :=
  if (lo =? 105)%N then [305%N]
  else if (lo =? 115)%N then [383%N]
  else [].

Definition in_list (c : N) (l : list N) : bool := existsb (N.eqb c) l.

Definition lit_ok (ic : bool) (c ch : N) : bool :=
  if ic
  then let lo := sre_lower c in in_list (sre_lower ch) (lo :: equivalents lo)
  else (ch =? c)%N.

Definition range_ok (ic : bool) (lo hi ch : N) : bool :=
  if ic
  then let l := sre_lower ch in
       ((lo <=? l) && (l <=? hi) || (lo <=? sre_upper l) && (sre_upper l <=? hi))%N
  else ((lo <=? ch) && (ch <=? hi))%N.

Section Matching.

Variable U : Unicode.
Variable fl : flags.

Definition item_ok (i : item) (ch : N) : bool :=
  match i with
  | IChar c => lit_ok (ignorecase fl) c ch
  | IRange lo hi => range_ok (ignorecase fl) lo hi ch
  | ISpace => Str.isspace ch
  | IDigit => isdecimal U ch
  end.

Definition atom_ok (a : atom) (ch : N) : bool :=
  match a with
  | ALit c => lit_ok (ignorecase fl) c ch
  | AAny => dotall fl || negb (ch =? 10)%N
  | ASpace => Str.isspace ch
  | ADigit => isdecimal U ch
  | ASet neg items => xorb neg (existsb (fun i => item_ok i ch) items)
  end.

(** The state of a match in progress: the text not yet consumed and
    the groups captured so far (the latest capture first). *)
Record mstate : Type := { rest : str; groups : list (nat * str) }.

Definition consumed (s s' : mstate) : str :=
  firstn (length (rest s) - length (rest s')) (rest s).

Definition capture (n : nat) (s s' : mstate) : mstate :=
  {| rest := rest s'; groups := (n, consumed s s') :: groups s' |}.

(** [$] without [MULTILINE]: at the end, or before a final newline. *)
Definition at_end (s : str) : bool :=
  match s with
  | [] => true
  | [c] => (c =? 10)%N
  | _ => false
  end.

Definition orelse (x : option mstate) (y : unit -> option mstate) :=
  match x with
  | Some _ => x
  | None => y tt
  end.

(** The iterations of a starred pattern, [step] matching one of them.
    An iteration has to consume text, so [length (rest s)] of them
    are enough. *)
Fixpoint star_loop
  (step : (mstate -> option mstate) -> mstate -> option mstate)
  (greedy : bool) (k : mstate -> option mstate) (fuel : nat) (s : mstate)
  {struct fuel} : option mstate :=
  match fuel with
  | O => k s
  | S fuel' =>
      let again (_ : unit) :=
        step (fun s' =>
                if length (rest s') <? length (rest s)
                then star_loop step greedy k fuel' s' else None) s in
      if greedy then orelse (again tt) (fun _ => k s)
      else orelse (k s) again
  end.

(** [run r k s]: match [r] at [s] and go on with [k]; backtrack into
    [r] while [k] fails. *)
Fixpoint run (r : regex) (k : mstate -> option mstate) (s : mstate)
  {struct r} : option mstate :=
  match r with
  | Eps => k s
  | Atom a =>
      match rest s with
      | c :: t =>
          if atom_ok a c then k {| rest := t; groups := groups s |}
          else None
      | [] => None
      end
  | Seq a b => run a (run b k) s
  | Alt a b => orelse (run a k s) (fun _ => run b k s)
  | Star g a => star_loop (run a) g k (length (rest s)) s
  | Group n a => run a (fun s' => k (capture n s s')) s
  | Lookahead a =>
      match run a (@Some mstate) s with
      | Some s' => k {| rest := rest s; groups := groups s' |}
      | None => None
      end
  | Dollar => if at_end (rest s) then k s else None
  end.

(** An attempt at one position. *)
Definition match_at (r : regex) (s : str) : option mstate :=
  run r (@Some mstate) {| rest := s; groups := [] |}.

(** The leftmost position of [s] at which [r] matches. *)
Fixpoint scan (r : regex) (s : str) : option mstate :=
  match match_at r s with
  | Some m => Some m
  | None =>
      match s with
      | [] => None
      | _ :: t => scan r t
      end
  end.

(** [m.group(n)]: [None] when the group took no part in the match. *)
Fixpoint group_of (n : nat) (g : list (nat * str)) : option str :=
  match g with
  | [] => None
  | (i, v) :: g' => if Nat.eqb i n then Some v else group_of n g'
  end.

Definition group (m : mstate) (n : nat) : pyval :=
  match group_of n (groups m) with
  | Some v => PyStr v
  | None => PyNone
  end.

(** [re.search(pattern, string, flags)]: a match object or [None];
    [TypeError] when [string] is not a [str]. *)
Definition search (r : regex) (subject : pyval) : res (option mstate) :=
  match subject with
  | PyStr s => Ok (scan r s)
  | _ => Raise TypeError
  end.

(** What [findall] reports for one match: the group when there is
    one, a tuple of the groups when there are several (a group that
    took no part gives the empty string). *)
Definition group_or_empty (m : mstate) (n : nat) : pyval :=
  match group_of n (groups m) with
  | Some v => PyStr v
  | None => PyStr []
  end.

Definition findall_item (r : regex) (m : mstate) : pyval :=
  match ngroups r with
  | 0 => group_or_empty m 0
  | 1 => group_or_empty m 1
  | n => PyTuple (map (group_or_empty m) (seq 1 n))
  end.

(** The non-overlapping matches from left to right. The whole match
    is kept as group 0. After a match the scan resumes where it
    ended, one character further on when the match was empty. *)
Fixpoint findall_from (fuel : nat) (r : regex) (s : str) : list pyval :=
  match fuel with
  | O => []
  | S fuel' =>
      match scan (Group 0 r) s with
      | None => []
      | Some m =>
          findall_item r m ::
            (if length (rest m) <? length s
             then findall_from fuel' r (rest m)
             else match rest m with
                  | [] => []
                  | _ :: t => findall_from fuel' r t
                  end)
      end
  end.

(** [re.findall(pattern, string, flags)] *)
Definition findall (r : regex) (subject : pyval) : res (list pyval) :=
  match subject with
  | PyStr s => Ok (findall_from (S (length s)) r s)
  | _ => Raise TypeError
  end.

End Matching.

End Re.

(* ================================================================== *)
(** ** The script *)

(** An element of [page_mappings]: the tuple
    [(uploaded_file.name, page_num, page_text)]. *)
Record PageRecord : Type := {
  file_name : str;
  page_num : Z;
  page_text : str
}.

Definition chr (a : ascii) : N := N_of_ascii a.
Arguments chr a%_char.

(** [v.strip()]: only a [str] has the method. *)
Definition str_strip (v : pyval) : res str :=
  match v with
  | PyStr s => Ok (Str.strip s)
  | _ => Raise AttributeError
  end.

(** A [for] loop whose body may raise. *)
Fixpoint for_each {A S : Type} (body : S -> A -> res S) (l : list A) (st : S)
  : res S :=
  match l with
  | [] => Ok st
  | x :: l' => st' <- body st x ;; for_each body l' st'
  end.

Module BlueBook.

Import Re.

(** *** The patterns (lines 70-77, 86, 88, 95) *)

(** [:?\s*([A-Za-z\s]+)] *)
Definition name_class : atom :=
  ASet false [IRange (chr "A") (chr "Z"); IRange (chr "a") (chr "z"); ISpace].

Definition name_tail : regex :=
  Seq (opt (lit ":")) (Seq (Star true (Atom ASpace))
    (Group 1 (plus (Atom name_class)))).

(** [:?\s*(\d{1,2}/\d{1,2}/\d{4})] *)
Definition date_tail : regex :=
  Seq (opt (lit ":")) (Seq (Star true (Atom ASpace))
    (Group 1 (Seq (rep_1_2 (Atom ADigit)) (Seq (lit "/")
               (Seq (rep_1_2 (Atom ADigit)) (Seq (lit "/")
                 (rep_4 (Atom ADigit)))))))).

Definition patterns : list (str * regex) :=
  [ (cp "contractor", Seq (Alt (lit "Contractor") (lit "Builder")) name_tail);
    (cp "architect", Seq (lit "Architect") name_tail);
    (cp "designer", Seq (lit "Designer") name_tail);
    (cp "client", Seq (Alt (lit "Client") (lit "Owner")) name_tail);
    (cp "start_date", Seq (Alt (lit "Start Date") (lit "Commencement")) date_tail);
    (cp "end_date", Seq (Alt (lit "End Date") (lit "Completion")) date_tail) ].

(** [(Trade:.*?)(?=(Trade:|$))] *)
Definition trades_pattern : regex :=
  Seq (Group 1 (Seq (lit "Trade:") (Star false (Atom AAny))))
      (Lookahead (Group 2 (Alt (lit "Trade:") Dollar))).

Definition not_newline : atom := ASet true [IChar 10%N].

(** [Trade:\s*([^\n]+)] *)
Definition trade_name_pattern : regex :=
  Seq (lit "Trade:") (Seq (Star true (Atom ASpace))
    (Group 1 (plus (Atom not_newline)))).

(** [Resources:?\s*([^\n]+)] *)
Definition resources_pattern : regex :=
  Seq (lit "Resources") (Seq (opt (lit ":")) (Seq (Star true (Atom ASpace))
    (Group 1 (plus (Atom not_newline))))).

(** The dictionary of lines 59-67. *)
Definition initial_result : Dict.t :=
  [ (cp "contractor", PyStr []);
    (cp "architect", PyStr []);
    (cp "designer", PyStr []);
    (cp "client", PyStr []);
    (cp "trades", PyDict []);
    (cp "project_start_date", PyStr []);
    (cp "project_end_date", PyStr []) ].

Section Program.

Variable U : Unicode.

(** *** [parse_gemini_response] (lines 54-109) *)

(** Lines 81-83, the body of the loop over [patterns.items()]. *)
Definition extract_entity (response : pyval) (result : Dict.t)
  (kp : str * regex) : res Dict.t :=
  m <- search U IGNORECASE (snd kp) response ;;
  match m with
  | Some m =>
      v <- str_strip (group m 1) ;;
      Ok (Dict.set (fst kp) (PyStr v) result)
  | None => Ok result
  end.

(** Lines 59-83. *)
Definition extract_entities (response : pyval) : res Dict.t :=
  for_each (extract_entity response) patterns initial_result.

(** Lines 96-97. *)
Definition collect_resources (resources : list pyval) (r : pyval)
  : res (list pyval) :=
  v <- str_strip r ;; Ok (resources ++ [PyStr v]).

(** The f-string of line 102. *)
Definition citation (p : PageRecord) : str :=
  file_name p ++ cp ": Page " ++ Str.of_int (page_num p).

(** Lines 100-102, the body of the loop over [page_mappings]. *)
Definition collect_page (trade_name : str) (page_numbers : list pyval)
  (p : PageRecord) : list pyval :=
  if Str.contains (lower U trade_name) (lower U (page_text p))
  then page_numbers ++ [PyStr (citation p)]
  else page_numbers.

Definition find_pages (trade_name : str) (page_mappings : list PageRecord)
  : list pyval :=
  fold_left (collect_page trade_name) page_mappings [].

(** [result["trades"][trade_name] = entry] *)
Definition set_trade (result : Dict.t) (trade_name : str) (entry : pyval)
  : res Dict.t :=
  match Dict.get (cp "trades") result with
  | Some (PyDict trades) =>
      Ok (Dict.set (cp "trades")
            (PyDict (Dict.set trade_name entry trades)) result)
  | Some _ => Raise TypeError
  | None => Raise KeyError
  end.

(** Lines 88-107, the body of the loop over [trades_section]. *)
Definition extract_trade (page_mappings : list PageRecord)
  (result : Dict.t) (trade : pyval) : res Dict.t :=
  trade_name_match <- search U NOFLAG trade_name_pattern trade ;;
  match trade_name_match with
  | Some m =>
      trade_name <- str_strip (group m 1) ;;
      resource_matches <- findall U NOFLAG resources_pattern trade ;;
      resources <- for_each collect_resources resource_matches [] ;;
      let page_numbers := find_pages trade_name page_mappings in
      set_trade result trade_name
        (PyDict [ (cp "resources", PyList resources);
                  (cp "pages", PyList page_numbers) ])
  | None => Ok result
  end.

Definition parse_gemini_response (response : pyval)
  (page_mappings : list PageRecord) : res pyval :=
  if negb (truthy response) then Ok PyNone
  else
    result <- extract_entities response ;;
    trades_section <- findall U DOTALL trades_pattern response ;;
    result <- for_each (extract_trade page_mappings) trades_section result ;;
    Ok (PyDict result).

End Program.


(** *** [extract_pdf_text] (lines 18-30) *)

(** An uploaded file that [pdfplumber.open] accepts: its name and, for
    each page in order, what [page.extract_text()] gives, a [str] or
    [None]. *)
Record Document : Type := {
  doc_name : str;
  doc_pages : list (option str)
}.

(** [enumerate(l, start)] *)
Fixpoint enumerate {A : Type} (start : Z) (l : list A) : list (Z * A) :=
  match l with
  | [] => []
  | x :: l' => (start, x) :: enumerate (start + 1) l'
  end.

(** Lines 25-28: the body of the loop over the pages. The state is the
    pair of [text] and [page_mappings]. *)
Definition extract_page (name : str) (st : str * list PageRecord)
  (ip : Z * option str) : str * list PageRecord :=
  let '(text, page_mappings) := st in
  let '(page_num, extracted) := ip in
  match extracted with
  | Some page_text =>
      if truthy (PyStr page_text)
      then (text ++ [10%N] ++ cp "[Page " ++ Str.of_int page_num ++ cp "]"
                 ++ [10%N] ++ page_text,
            page_mappings ++ [ {| file_name := name; page_num := page_num;
                                  page_text := page_text |} ])
      else st
  | None => st
  end.

(** Lines 22-29: the body of the loop over the files. *)
Definition extract_file (st : list (str * str) * list PageRecord)
  (f : Document) : list (str * str) * list PageRecord :=
  let '(pdf_texts, page_mappings) := st in
  let '(text, page_mappings') :=
    fold_left (extract_page (doc_name f)) (enumerate 1 (doc_pages f))
              ([], page_mappings) in
  (pdf_texts ++ [(doc_name f, text)], page_mappings').

Definition extract_pdf_text (uploaded_files : list Document)
  : list (str * str) * list PageRecord :=
  fold_left extract_file uploaded_files ([], []).

(** *** [call_gemini_api] (lines 33-51) *)

(** What the script does to the outside: the HTTP request and the
    widgets it draws. An f-string with one hole is kept as its literal
    part and the interpolated object. [Ev_parse] marks an entry into
    [parse_gemini_response]. *)
Inductive event : Type :=
| Ev_post (url : str) (headers json : pyval)
| Ev_error_exn (text : str) (e : exn)
| Ev_error (text : str)
| Ev_info (text : str)
| Ev_subheader (text : str)
| Ev_write (text : str) (v : pyval)
| Ev_parse (response : pyval).

(** A computation that draws and may raise. *)
Definition io (A : Type) : Type := list event * res A.

Definition io_ret {A} (a : A) : io A := ([], Ok a).
Definition io_bind {A B} (x : io A) (f : A -> io B) : io B :=
  match x with
  | (log, Ok a) => let '(log', b) := f a in (log ++ log', b)
  | (log, Raise e) => (log, Raise e)
  end.
Definition emit (e : event) : io unit := ([e], Ok tt).
Definition lift {A} (x : res A) : io A := ([], x).

(** What [requests.post] comes back with: an exception when no response
    was obtained, otherwise the status code and the body as
    [response.json()] decodes it ([None] when it is not JSON). *)
Inductive reply : Type :=
| NoResponse (e : exn)
| Response (status_code : Z) (json : option pyval).

Definition network : Type := str -> pyval -> pyval -> reply.

(** [response.raise_for_status()] *)
Definition raise_for_status (status_code : Z) : res unit :=
  if ((400 <=? status_code) && (status_code <? 600))%Z
  then Raise (HTTPError status_code) else Ok tt.

(** [v.get(key, default)]: a method of [dict] only. *)
Definition py_get (v : pyval) (key : str) (default : pyval) : res pyval :=
  match v with
  | PyDict d =>
      Ok (match Dict.get key d with Some x => x | None => default end)
  | _ => Raise AttributeError
  end.

(** [v[0]] *)
Definition py_first (v : pyval) : res pyval :=
  match v with
  | PyList (x :: _) | PyTuple (x :: _) => Ok x
  | PyList [] | PyTuple [] | PyStr [] => Raise IndexError
  | PyStr (c :: _) => Ok (PyStr [c])
  | PyDict _ => Raise KeyError
  | PyNone | PyBool _ | PyInt _ | PyFloat _ => Raise TypeError
  end.

Definition url : str :=
  cp "https://generativelanguage.googleapis.com/v1beta/models/gemini-2.0-flash:generateContent".

(** Line 48. *)
Definition first_text (body : pyval) : res pyval :=
  candidates <- py_get body (cp "candidates") (PyList [PyDict []]) ;;
  candidate <- py_first candidates ;;
  content <- py_get candidate (cp "content") (PyDict []) ;;
  parts <- py_get content (cp "parts") (PyList [PyDict []]) ;;
  part <- py_first parts ;;
  py_get part (cp "text") (PyStr []).

(** The arguments of [requests.post] (lines 34-46). *)
Definition request_url (api_key : str) : str := url ++ cp "?key=" ++ api_key.

Definition request_headers : pyval :=
  PyDict [(cp "Content-Type", PyStr (cp "application/json"))].

Definition request_data (prompt : str) : pyval :=
  PyDict [(cp "contents",
           PyList [PyDict [(cp "parts",
                            PyList [PyDict [(cp "text", PyStr prompt)]])]])].

(** Lines 47-48 on what [requests.post] came back with. *)
Definition read_reply (r : reply) : res pyval :=
  match r with
  | NoResponse e => Raise e
  | Response status_code json =>
      _ <- raise_for_status status_code ;;
      body <- match json with
              | Some v => Ok v
              | None => Raise JSONDecodeError
              end ;;
      first_text body
  end.

(** Lines 46-48, the body of the [try]. *)
Definition request (net : network) (api_key prompt : str) : io pyval :=
  let full_url := request_url api_key in
  let data := request_data prompt in
  io_bind (emit (Ev_post full_url request_headers data)) (fun _ =>
  lift (read_reply (net full_url request_headers data))).

Definition call_gemini_api (net : network) (api_key prompt : str)
  : io pyval :=
  match request net api_key prompt with
  | (log, Ok v) => (log, Ok v)
  | (log, Raise e) =>
      (log ++ [Ev_error_exn (cp "Error calling Gemini API: ") e], Ok PyNone)
  end.

(** *** The "Analyze PDFs" branch (lines 112-162) *)

Section Pipeline.

Variable U : Unicode.

(** [sep.join(l)] for a list of [str]. *)
Fixpoint join (sep : str) (l : list str) : str :=
  match l with
  | [] => []
  | [x] => x
  | x :: l' => x ++ sep ++ join sep l'
  end.

Definition prompt_head : str :=
  cp "Analyze the following construction-related PDF content and extract:"
  ++ [10%N] ++ cp "1. Contractor name"
  ++ [10%N] ++ cp "2. Architect name"
  ++ [10%N] ++ cp "3. Designer name"
  ++ [10%N] ++ cp "4. Client name"
  ++ [10%N] ++ cp "5. Construction elements/resources for each trade"
  ++ [10%N] ++ cp "6. Page numbers where each trade's specs/plans appear"
  ++ [10%N] ++ cp "7. Project start date"
  ++ [10%N] ++ cp "8. Project end date"
  ++ [10%N] ++ [10%N]
  ++ cp "Provide the output in a structured format. Here is the PDF content:"
  ++ [10%N].

(** Lines 119-132. *)
Definition build_prompt (pdf_texts : list (str * str)) : str :=
  let combined_text := join [10%N] (map snd pdf_texts) in
  prompt_head ++ combined_text.

(** [d[key]] *)
Definition py_item (v : pyval) (key : str) : res pyval :=
  match v with
  | PyDict d =>
      match Dict.get key d with Some x => Ok x | None => Raise KeyError end
  | _ => Raise TypeError
  end.

(** [', '.join(v)]: [v] has to be a sequence of [str]. *)
Fixpoint strs_of (l : list pyval) : res (list str) :=
  match l with
  | [] => Ok []
  | PyStr x :: l' => xs <- strs_of l' ;; Ok (x :: xs)
  | _ :: _ => Raise TypeError
  end.

Definition comma_join (v : pyval) : res pyval :=
  match v with
  | PyList l | PyTuple l => xs <- strs_of l ;; Ok (PyStr (join (cp ", ") xs))
  | _ => Raise TypeError
  end.

Definition write_field (result : pyval) (text : string) (key : string)
  : io unit :=
  io_bind (lift (py_item result (cp key))) (fun v =>
  emit (Ev_write (cp text) v)).

(** Lines 153-156. *)
Definition show_trade (st : unit) (item : str * pyval) : io unit :=
  let '(trade, details) := item in
  io_bind (emit (Ev_write (cp "**Trade**: ") (PyStr trade))) (fun _ =>
  io_bind (lift (r <- py_item details (cp "resources") ;; comma_join r)) (fun r =>
  io_bind (emit (Ev_write (cp "**Resources**: ") r)) (fun _ =>
  io_bind (lift (p <- py_item details (cp "pages") ;; comma_join p)) (fun p =>
  io_bind (emit (Ev_write (cp "**Page Numbers**: ") p)) (fun _ =>
  emit (Ev_write (cp "---") (PyStr []))))))).

Fixpoint io_for_each {A : Type} (body : unit -> A -> io unit) (l : list A)
  : io unit :=
  match l with
  | [] => io_ret tt
  | x :: l' => io_bind (body tt x) (fun _ => io_for_each body l')
  end.

(** Lines 143-156. *)
Definition show_result (result : pyval) : io unit :=
  io_bind (emit (Ev_subheader (cp "Analysis Results"))) (fun _ =>
  io_bind (write_field result "**Contractor**: " "contractor") (fun _ =>
  io_bind (write_field result "**Architect**: " "architect") (fun _ =>
  io_bind (write_field result "**Designer**: " "designer") (fun _ =>
  io_bind (write_field result "**Client**: " "client") (fun _ =>
  io_bind (write_field result "**Project Start Date**: " "project_start_date") (fun _ =>
  io_bind (write_field result "**Project End Date**: " "project_end_date") (fun _ =>
  io_bind (emit (Ev_subheader (cp "Trades and Resources"))) (fun _ =>
  io_bind (lift (py_item result (cp "trades"))) (fun trades =>
  match trades with
  | PyDict d => io_for_each show_trade d
  | _ => lift (Raise AttributeError)
  end))))))))).

(** Lines 112-162. [button] is what [st.button] returns. *)
Definition analyze (net : network) (uploaded_files : list Document)
  (api_key : str) (button : bool) : io unit :=
  if negb (length uploaded_files =? 0) && truthy (PyStr api_key) then
    if button then
      let '(pdf_texts, page_mappings) := extract_pdf_text uploaded_files in
      let prompt := build_prompt pdf_texts in
      io_bind (call_gemini_api net api_key prompt) (fun gemini_response =>
      if truthy gemini_response then
        io_bind (emit (Ev_parse gemini_response)) (fun _ =>
        io_bind (lift (parse_gemini_response U gemini_response page_mappings))
          (fun result =>
        if truthy result then show_result result
        else emit (Ev_error (cp "Could not parse the analysis results."))))
      else
        emit (Ev_error (cp "Failed to get a valid response from the Gemini API.")))
    else io_ret tt
  else
    emit (Ev_info (cp "Please upload PDF files and provide a valid Gemini API key.")).

End Pipeline.

End BlueBook.

(** ASCII instances of the two Unicode tables, for running the script on
    ASCII text, where they agree with the interpreter's. *)
Definition ascii_isdecimal (c : N) : bool := ((48 <=? c) && (c <=? 57))%N.
Definition ascii_lower (s : str) : str :=
  map (fun c => if Str.is_ascii_upper c then (c + 32)%N else c) s.
Definition ascii_tables : Unicode :=
  {| isdecimal := ascii_isdecimal; lower := ascii_lower |}.

(* ================================================================== *)
(** ** Specification-side definitions *)

Module Spec.

Import BlueBook.

Definition nl : str := [10%N].

(** A page that yields text: [extract_text] gave a non-empty [str]. *)
Definition has_text (p : option str) : bool :=
  match p with
  | Some (_ :: _) => true
  | _ => false
  end.

(** One record for each page with text, in page order, the first page
    of the document being page [n]. *)
Fixpoint page_records (name : str) (n : Z) (pages : list (option str))
  : list PageRecord :=
  match pages with
  | [] => []
  | p :: pages' =>
      match p with
      | Some (c :: t) =>
          [ {| file_name := name; page_num := n; page_text := c :: t |} ]
      | _ => []
      end ++ page_records name (n + 1) pages'
  end.

Definition records_of (f : Document) : list PageRecord :=
  page_records (doc_name f) 1 (doc_pages f).

(** The longest prefix of [s] whose characters satisfy [p], and what
    follows it. *)
Fixpoint takewhile (p : N -> bool) (s : str) : str :=
  match s with
  | c :: t => if p c then c :: takewhile p t else []
  | [] => []
  end.

Fixpoint dropwhile (p : N -> bool) (s : str) : str :=
  match s with
  | c :: t => if p c then dropwhile p t else s
  | [] => []
  end.

(** The characters that [[A-Za-z\s]] admits under [IGNORECASE]: the
    ASCII letters, U+0130, U+0131, U+017F, U+212A, and white space. *)
Definition name_char (c : N) : bool :=
  Str.is_ascii_letter c || Re.in_list c [304; 305; 383; 8490]%N
  || Str.isspace c.

(** What a pattern of [patterns] captures in the reply, if it matches. *)
Definition captured (U : Unicode) (r : Re.regex) (reply : str) : option str :=
  match Re.scan U Re.IGNORECASE r reply with
  | Some m => Re.group_of 1 (Re.groups m)
  | None => None
  end.

(** The assignment of line 83 for one pattern. *)
Definition update (U : Unicode) (reply : str) (d : Dict.t)
  (kp : str * Re.regex) : Dict.t :=
  match captured U (snd kp) reply with
  | Some g => Dict.set (fst kp) (PyStr (Str.strip g)) d
  | None => d
  end.

(** The dictionary after the loop of lines 80-83. *)
Definition entities (U : Unicode) (reply : str) : Dict.t :=
  fold_left (update U reply) patterns initial_result.

(** Line 101: the page mentions the trade. *)
Definition mentions (U : Unicode) (trade_name : str) (p : PageRecord) : bool :=
  Str.contains (lower U trade_name) (lower U (page_text p)).

(** Lines 88-90: the trade name found in a chunk, if any. *)
Definition trade_name_of (U : Unicode) (chunk : str) : option str :=
  match Re.scan U Re.NOFLAG trade_name_pattern chunk with
  | Some m => option_map Str.strip (Re.group_of 1 (Re.groups m))
  | None => None
  end.

(** The four keys that hold a name. *)
Definition name_keys : list str :=
  [cp "contractor"; cp "architect"; cp "designer"; cp "client"].

(** A reply with the Kelvin sign U+212A in the client's name. *)
Definition reply_kelvin : str := cp "Owner: " ++ [8490%N] ++ cp "elvin".

(** A body with an empty list of candidates. *)
Definition body_no_candidate : pyval :=
  PyDict [(cp "candidates", PyList [])].

(** One chunk of a reply, as a string. *)
Definition chunk_electrical : str :=
  cp "Trade: Electrical" ++ nl ++ cp "Resources: wiring, panels" ++ nl.

(** A reply with a digit after the client's name. *)
Definition reply_jane : str := cp "Client: Jane Doe 7".

(** A body whose first part has no text. *)
Definition body_no_text : pyval :=
  PyDict [(cp "candidates",
           PyList [PyDict [(cp "content",
                            PyDict [(cp "parts", PyList [PyDict []])])]])].

(** Networks that answer every request the same way. *)
Definition always (r : reply) : network := fun _ _ _ => r.

Definition one_page_file : Document :=
  {| doc_name := cp "spec.pdf"; doc_pages := [Some (cp "electrical")] |}.

(** The key on the path [candidates[0].content.parts[0].text] that the
    body lacks, everything in front of it being as expected. *)
Inductive lacks_key : pyval -> Prop :=
| lacks_candidates (d : Dict.t) :
    Dict.get (cp "candidates") d = None ->
    lacks_key (PyDict d)
| lacks_content (d c : Dict.t) (l : list pyval) :
    Dict.get (cp "candidates") d = Some (PyList (PyDict c :: l)) ->
    Dict.get (cp "content") c = None ->
    lacks_key (PyDict d)
| lacks_parts (d c ct : Dict.t) (l : list pyval) :
    Dict.get (cp "candidates") d = Some (PyList (PyDict c :: l)) ->
    Dict.get (cp "content") c = Some (PyDict ct) ->
    Dict.get (cp "parts") ct = None ->
    lacks_key (PyDict d)
| lacks_text (d c ct part : Dict.t) (l l' : list pyval) :
    Dict.get (cp "candidates") d = Some (PyList (PyDict c :: l)) ->
    Dict.get (cp "content") c = Some (PyDict ct) ->
    Dict.get (cp "parts") ct = Some (PyList (PyDict part :: l')) ->
    Dict.get (cp "text") part = None ->
    lacks_key (PyDict d).

(** The API call failed: no response, an error status, or a body that
    is not JSON. *)
Definition api_failure (r : reply) : Prop :=
  match r with
  | NoResponse _ => True
  | Response status_code json =>
      (400 <= status_code < 600)%Z \/ json = None
  end.

(** Scenario A of the specification. *)
Definition reply_A : str :=
  cp "Contractor: Acme Builders" ++ nl ++ cp "Client: Jane Doe" ++ nl
  ++ cp "Trade: Electrical" ++ nl ++ cp "Resources: wiring, panels" ++ nl.

Definition pages_A : list PageRecord :=
  [ {| file_name := cp "spec.pdf"; page_num := 3;
       page_text := cp "... electrical rough-in ..." |} ].

(** Scenario D of the specification. *)
Definition reply_D : str :=
  cp "Trade: Plumbing" ++ nl ++ cp "Resources: pipes" ++ nl
  ++ cp "Trade: HVAC" ++ nl ++ cp "Resources: ducts" ++ nl.

(** [s'] is [s] with a prefix of its text consumed. *)
Definition reaches (s s' : Re.mstate) : Prop :=
  exists pre, Re.rest s = pre ++ Re.rest s'.

End Spec.

(* ================================================================== *)
(** ** Further specification-side definitions *)

Module Shape.

Import BlueBook Spec.

(** What one PageRecord adds to the text of its document (line 27). *)
Definition marker (r : PageRecord) : str :=
  nl ++ cp "[Page " ++ Str.of_int (page_num r) ++ cp "]" ++ nl ++ page_text r.

(** The text of a document: the markers of its pages with text. *)
Definition text_of (f : Document) : str :=
  concat (map marker (records_of f)).

(** The body holds [v] at [candidates[0].content.parts[0].text]. *)
Inductive text_part (v : pyval) : pyval -> Prop :=
| text_part_intro (d c ct part : Dict.t) (l l' : list pyval) :
    Dict.get (cp "candidates") d = Some (PyList (PyDict c :: l)) ->
    Dict.get (cp "content") c = Some (PyDict ct) ->
    Dict.get (cp "parts") ct = Some (PyList (PyDict part :: l')) ->
    Dict.get (cp "text") part = Some v ->
    text_part v (PyDict d).

(** A status that [raise_for_status] lets through. *)
Definition passes (status_code : Z) : Prop :=
  (status_code < 400 \/ 600 <= status_code)%Z.

Definition is_dict (v : pyval) : bool :=
  match v with
  | PyDict _ => true
  | _ => false
  end.

Definition is_str (v : pyval) : bool :=
  match v with
  | PyStr _ => true
  | _ => false
  end.

Definition is_post (e : event) : bool :=
  match e with
  | Ev_post _ _ _ => true
  | _ => false
  end.

(** The request that [call_gemini_api] sends. *)
Definition post_of (api_key prompt : str) : event :=
  Ev_post (request_url api_key) request_headers (request_data prompt).

(** The prompt of a run. *)
Definition prompt_of (uploaded_files : list Document) : str :=
  build_prompt (fst (extract_pdf_text uploaded_files)).

(** The value that a returned result holds under a key. *)
Definition field (U : Unicode) (reply : str) (key : string) : pyval :=
  match Dict.get (cp key) (entities U reply) with
  | Some v => v
  | None => PyNone
  end.

(** A body with the reply [Trade: x] as its text. *)
Definition body_text (text : pyval) : pyval :=
  PyDict [(cp "candidates",
           PyList [PyDict [(cp "content",
                            PyDict [(cp "parts",
                                     PyList [PyDict [(cp "text", text)]])])]])].

(** The two patterns of [patterns] for the dates. *)
Definition start_date_pattern : Re.regex :=
  Eval cbv [patterns nth snd] in snd (nth 4 patterns ([], Re.Eps)).

Definition end_date_pattern : Re.regex :=
  Eval cbv [patterns nth snd] in snd (nth 5 patterns ([], Re.Eps)).

(** The keys of the dictionary of lines 59-67, in order. *)
Definition result_keys : list str :=
  [ cp "contractor"; cp "architect"; cp "designer"; cp "client"; cp "trades";
    cp "project_start_date"; cp "project_end_date" ].

(** The key that a date pattern adds when it matches. *)
Definition added_key (U : Unicode) (key : string) (r : Re.regex) (reply : str)
  : list str :=
  match captured U r reply with
  | Some _ => [cp key]
  | None => []
  end.









(** Two strings that the case folding of [IGNORECASE] cannot tell
    apart: the same characters up to case. *)
Definition same_fold (a b : str) : Prop :=
  map Re.sre_lower a = map Re.sre_lower b.

(** A character with a case variant among the characters that fold to
    ASCII: an ASCII letter, U+0130 or U+212A. *)
Definition cased (c : N) : bool :=
  Str.is_ascii_upper c || Str.is_ascii_lower c || (c =? 304)%N || (c =? 8490)%N.

(** Patterns without [\d]. *)
Definition digit_free_item (i : Re.item) : bool :=
  match i with
  | Re.IDigit => false
  | _ => true
  end.

Definition digit_free_atom (a : Re.atom) : bool :=
  match a with
  | Re.ADigit => false
  | Re.ASet _ items => forallb digit_free_item items
  | _ => true
  end.

Fixpoint digit_free (r : Re.regex) : bool :=
  match r with
  | Re.Eps | Re.Dollar => true
  | Re.Atom a => digit_free_atom a
  | Re.Seq a b | Re.Alt a b => digit_free a && digit_free b
  | Re.Star _ a | Re.Group _ a | Re.Lookahead a => digit_free a
  end.

(** Match states over two texts that are the same up to case. *)
Definition state_fold (s s' : Re.mstate) : Prop :=
  same_fold (Re.rest s) (Re.rest s')
  /\ Forall2 (fun g g' => fst g = fst g' /\ same_fold (snd g) (snd g'))
             (Re.groups s) (Re.groups s').

Definition opt_fold (x y : option Re.mstate) : Prop :=
  match x, y with
  | Some a, Some b => state_fold a b
  | None, None => True
  | _, _ => False
  end.

(** A network that answers with status 200 and [text] as the text part. *)
Definition answers (text : pyval) : network :=
  always (Response 200 (Some (body_text text))).

(** The record of the page of [one_page_file]. *)
Definition one_page_record : PageRecord :=
  {| file_name := cp "spec.pdf"; page_num := 1; page_text := cp "electrical" |}.

Definition reply_date : str := cp "Start Date: 1/2/2024".

Definition reply_upper : str := cp "CLIENT: Acme Corp".
Definition reply_lower : str := cp "client: Acme Corp".

End Shape.

(* ================================================================== *)
(** ** [extract_pdf_text] *)

Section TextExtractor.

Import BlueBook Spec.

Lemma extract_page_fold (name : str) (pages : list (option str)) :
  forall (n : Z) (text : str) (pm : list PageRecord),
    snd (fold_left (extract_page name) (enumerate n pages) (text, pm))
    = pm ++ page_records name n pages.
Proof.
  induction pages as [|p pages IH]; intros n text pm; simpl.
  - now rewrite app_nil_r.
  - destruct p as [[|c t]|]; simpl; rewrite IH.
    + reflexivity.
    + now rewrite <- app_assoc.
    + reflexivity.
Qed.

Lemma extract_file_fold (files : list Document) :
  forall (texts : list (str * str)) (pm : list PageRecord),
    snd (fold_left extract_file files (texts, pm))
    = pm ++ flat_map records_of files.
Proof.
  induction files as [|f files IH]; intros texts pm; simpl.
  - now rewrite app_nil_r.
  - pose proof (extract_page_fold (doc_name f) (doc_pages f) 1 [] pm) as H.
    revert H.
    destruct (fold_left (extract_page (doc_name f)) _ _) as [text pm'].
    intros H. simpl in H. subst pm'. rewrite IH.
    unfold records_of at 2. now rewrite <- app_assoc.
Qed.

Lemma page_records_length (name : str) (pages : list (option str)) :
  forall n, length (page_records name n pages)
            = length (filter has_text pages).
Proof.
  induction pages as [|p pages IH]; intros n; simpl; [reflexivity|].
  destruct p as [[|c t]|]; simpl; now rewrite IH.
Qed.

Lemma page_records_In (name : str) (pages : list (option str)) :
  forall n r,
    In r (page_records name n pages) <->
    exists i t, nth_error pages i = Some (Some t) /\ t <> [] /\
                r = {| file_name := name; page_num := n + Z.of_nat i;
                       page_text := t |}.
Proof.
  induction pages as [|p pages IH]; intros n r; simpl.
  - split; [intros []|]. intros (i & t & H & _). now destruct i.
  - rewrite in_app_iff, IH. split.
    + intros [H | (i & t & Hn & Ht & ->)].
      * destruct p as [[|c t]|]; simpl in H; try tauto.
        destruct H as [<- | []]. exists 0%nat, (c :: t).
        repeat split; try discriminate. now rewrite Z.add_0_r.
      * exists (S i), t. repeat split; auto. f_equal. lia.
    + intros (i & t & Hn & Ht & ->). destruct i as [|i]; simpl in Hn.
      * left. injection Hn as ->. destruct t as [|c t]; [easy|].
        left. now rewrite Z.add_0_r.
      * right. exists i, t. repeat split; auto. f_equal. lia.
Qed.

Lemma page_records_increasing (name : str) (pages : list (option str)) :
  forall n i j a b,
    nth_error (page_records name n pages) i = Some a ->
    nth_error (page_records name n pages) j = Some b ->
    (i < j)%nat -> (n <= page_num a < page_num b)%Z.
Proof.
  assert (LB : forall pages n r, In r (page_records name n pages) ->
                                 (n <= page_num r)%Z).
  { intros ps n r H. apply page_records_In in H.
    destruct H as (i & t & _ & _ & ->). simpl. lia. }
  induction pages as [|p pages IH]; intros n i j a b Ha Hb Hij.
  - now destruct i.
  - simpl in Ha, Hb. destruct p as [[|c t]|]; simpl in Ha, Hb.
    + specialize (IH _ _ _ _ _ Ha Hb Hij). lia.
    + destruct j as [|j]; [lia|]. simpl in Hb.
      pose proof (LB _ _ _ (nth_error_In _ _ Hb)) as Hlb.
      destruct i as [|i]; simpl in Ha.
      * injection Ha as <-. simpl. lia.
      * assert (Hij' : (i < j)%nat) by lia.
        specialize (IH _ _ _ _ _ Ha Hb Hij'). lia.
    + specialize (IH _ _ _ _ _ Ha Hb Hij). lia.
Qed.

End TextExtractor.

(* ================================================================== *)
(** ** Facts about the matcher *)

Section ReFacts.

Import Re Spec.

Variable U : Unicode.
Variable fl : flags.

Lemma reaches_refl (s : mstate) : reaches s s.
Proof. now exists []. Qed.

Lemma reaches_trans (a b c : mstate) :
  reaches a b -> reaches b c -> reaches a c.
Proof.
  intros [p Hp] [q Hq]. exists (p ++ q). now rewrite Hp, Hq, app_assoc.
Qed.

Lemma orelse_Some (x : option mstate) (y : unit -> option mstate) (m : mstate) :
  orelse x y = Some m -> x = Some m \/ (x = None /\ y tt = Some m).
Proof. destruct x; simpl; auto. Qed.

Lemma star_loop_reaches
  (step : (mstate -> option mstate) -> mstate -> option mstate)
  (Hstep : forall k s x, step k s = Some x ->
                         exists s', reaches s s' /\ k s' = Some x)
  (g : bool) (k : mstate -> option mstate) :
  forall fuel s x,
    star_loop step g k fuel s = Some x ->
    exists s', reaches s s' /\ k s' = Some x.
Proof.
  induction fuel as [|fuel IH]; intros s x H; simpl in H.
  - exists s. split; [apply reaches_refl | exact H].
  - assert (Again : forall x,
               step (fun s' => if length (rest s') <? length (rest s)
                               then star_loop step g k fuel s' else None) s
               = Some x ->
               exists s', reaches s s' /\ k s' = Some x).
    { intros y Hy. apply Hstep in Hy. destruct Hy as (s1 & R1 & Hy).
      destruct (length (rest s1) <? length (rest s)); [|discriminate].
      apply IH in Hy. destruct Hy as (s2 & R2 & Hy).
      exists s2. split; [eapply reaches_trans; eauto | exact Hy]. }
    destruct g; apply orelse_Some in H.
    + destruct H as [H | [_ H]]; [now apply Again|].
      exists s. split; [apply reaches_refl | exact H].
    + destruct H as [H | [_ H]]; [|now apply Again].
      exists s. split; [apply reaches_refl | exact H].
Qed.

(** A successful run went through the continuation, at a state further
    on in the text. *)
Lemma run_reaches (r : regex) :
  forall k s x,
    run U fl r k s = Some x ->
    exists s', reaches s s' /\ k s' = Some x.
Proof.
  induction r as [|a|a IHa b IHb|a IHa b IHb|g a IHa|n a IHa|a IHa|];
    intros k s x H; simpl in H.
  - exists s. split; [apply reaches_refl | exact H].
  - destruct (rest s) as [|c t] eqn:E; [discriminate|].
    destruct (atom_ok U fl a c); [|discriminate].
    eexists. split; [|exact H]. exists [c]. now rewrite E.
  - apply IHa in H. destruct H as (s1 & R1 & H).
    apply IHb in H. destruct H as (s2 & R2 & H).
    exists s2. split; [eapply reaches_trans; eauto | exact H].
  - apply orelse_Some in H. destruct H as [H | [_ H]]; eauto.
  - eapply star_loop_reaches; eauto.
  - apply IHa in H. destruct H as (s1 & R1 & H).
    exists (capture n s s1). split; [exact R1 | exact H].
  - destruct (run U fl a (@Some mstate) s) as [s1|]; [|discriminate].
    eexists. split; [|exact H]. now exists [].
  - destruct (at_end (rest s)); [|discriminate].
    exists s. split; [apply reaches_refl | exact H].
Qed.

Lemma group_of_capture (n : nat) (s s' : mstate) :
  group_of n (groups (capture n s s')) = Some (consumed s s').
Proof. simpl. now rewrite Nat.eqb_refl. Qed.

Lemma consumed_reaches (s s' : mstate) (pre : str) :
  rest s = pre ++ rest s' -> consumed s s' = pre.
Proof.
  intros H. unfold consumed. rewrite H, length_app.
  replace (length pre + length (rest s') - length (rest s'))
    with (length pre + 0) by lia.
  now rewrite firstn_app_2, firstn_O, app_nil_r.
Qed.

(** A pattern that ends in a group captures it whenever it matches. *)
Lemma run_group_last (n : nat) (r : regex) (s m : mstate) :
  run U fl (Group n r) (@Some mstate) s = Some m ->
  exists pre, rest s = pre ++ rest m /\ group_of n (groups m) = Some pre.
Proof.
  intros H. simpl in H. apply run_reaches in H.
  destruct H as (s' & [pre R] & H). injection H as <-.
  exists pre. split; [exact R|].
  rewrite group_of_capture. f_equal. now apply consumed_reaches.
Qed.

(** [scan] finds its match at some suffix of the text. *)
Lemma scan_suffix (r : regex) (s : str) (m : mstate) :
  scan U fl r s = Some m ->
  exists skipped s', s = skipped ++ s' /\ match_at U fl r s' = Some m.
Proof.
  induction s as [|c s IH]; simpl; intros H.
  - destruct (match_at U fl r []) eqn:E; [|discriminate].
    injection H as ->. now exists [], [].
  - destruct (match_at U fl r (c :: s)) eqn:E.
    + injection H as ->. now exists [], (c :: s).
    + apply IH in H. destruct H as (sk & s' & -> & H).
      now exists (c :: sk), s'.
Qed.

(** The equations of [run]. *)
Lemma run_seq (a b : regex) k s :
  run U fl (Seq a b) k s = run U fl a (run U fl b k) s.
Proof. reflexivity. Qed.

Lemma run_alt (a b : regex) k s :
  run U fl (Alt a b) k s = orelse (run U fl a k s) (fun _ => run U fl b k s).
Proof. reflexivity. Qed.

Lemma run_group (n : nat) (a : regex) k s :
  run U fl (Group n a) k s = run U fl a (fun s' => k (capture n s s')) s.
Proof. reflexivity. Qed.

Lemma run_star (g : bool) (a : regex) k s :
  run U fl (Star g a) k s = star_loop (run U fl a) g k (length (rest s)) s.
Proof. reflexivity. Qed.

Lemma run_atom (a : atom) k s :
  run U fl (Atom a) k s
  = match rest s with
    | c :: t =>
        if atom_ok U fl a c then k {| rest := t; groups := groups s |}
        else None
    | [] => None
    end.
Proof. reflexivity. Qed.

Lemma takewhile_dropwhile (p : N -> bool) (s : str) :
  takewhile p s ++ dropwhile p s = s.
Proof.
  induction s as [|c t IH]; simpl; [reflexivity|].
  destruct (p c); simpl; [now rewrite IH | reflexivity].
Qed.

Lemma takewhile_all (p : N -> bool) (s : str) :
  forallb p (takewhile p s) = true.
Proof.
  induction s as [|c t IH]; simpl; [reflexivity|].
  destruct (p c) eqn:E; simpl; [now rewrite E | reflexivity].
Qed.

Lemma dropwhile_head (p : N -> bool) (s : str) :
  match dropwhile p s with
  | [] => True
  | c :: _ => p c = false
  end.
Proof.
  induction s as [|c t IH]; simpl; [exact I|].
  destruct (p c) eqn:E; [exact IH | exact E].
Qed.

Lemma dropwhile_length (p : N -> bool) (s : str) :
  length (dropwhile p s) <= length s.
Proof.
  induction s as [|c t IH]; simpl; [lia|]. destruct (p c); simpl; lia.
Qed.

(** A greedy star of one atom in front of a continuation that cannot
    fail takes every character it can. *)
Lemma star_greedy_atom (a : atom) (k : mstate -> option mstate)
  (Hk : forall s', k s' <> None) :
  forall fuel s,
    length (rest s) <= fuel ->
    star_loop (run U fl (Atom a)) true k fuel s
    = k {| rest := dropwhile (atom_ok U fl a) (rest s); groups := groups s |}.
Proof.
  induction fuel as [|fuel IH]; intros [rs gs] Hlen; simpl in *.
  - destruct rs; [reflexivity | simpl in Hlen; lia].
  - destruct rs as [|c t]; simpl; [reflexivity|].
    destruct (atom_ok U fl a c); simpl; [|reflexivity].
    replace (length t <? S (length t)) with true
      by (symmetry; apply Nat.ltb_lt; lia).
    simpl in Hlen. rewrite IH by (simpl; lia). simpl.
    destruct (k {| rest := dropwhile (atom_ok U fl a) t; groups := gs |})
      eqn:E; [reflexivity|]. now apply Hk in E.
Qed.

(** [(a+)] at the end of a pattern. *)
Lemma run_group_plus_atom (n : nat) (a : atom) (s : mstate) :
  run U fl (Group n (plus (Atom a))) (@Some mstate) s
  = match rest s with
    | c :: t =>
        if atom_ok U fl a c
        then Some {| rest := dropwhile (atom_ok U fl a) t;
                     groups := (n, c :: takewhile (atom_ok U fl a) t)
                                 :: groups s |}
        else None
    | [] => None
    end.
Proof.
  destruct s as [rs gs]. unfold plus.
  rewrite run_group, run_seq, run_atom. cbn [rest groups].
  destruct rs as [|c t]; [reflexivity|].
  destruct (atom_ok U fl a c); [|reflexivity].
  rewrite run_star, star_greedy_atom; [|discriminate|simpl; lia].
  unfold capture, consumed. cbn [rest groups].
  set (p := atom_ok U fl a).
  pose proof (takewhile_dropwhile p t) as E.
  assert (Len : length t = length (takewhile p t) + length (dropwhile p t))
    by (now rewrite <- length_app, E).
  assert (F : firstn (length (takewhile p t)) t = takewhile p t).
  { transitivity (firstn (length (takewhile p t))
                    (takewhile p t ++ dropwhile p t)); [now rewrite E|].
    now rewrite firstn_app, Nat.sub_diag, firstn_all, firstn_O, app_nil_r. }
  replace (length (c :: t) - length (dropwhile p t))
    with (S (length (takewhile p t))) by (cbn [length]; lia).
  cbn [firstn]. now rewrite F.
Qed.

(** A literal word, compared case-sensitively. *)
Lemma run_lit_str (Hcase : ignorecase fl = false) (w : str) :
  forall k s,
    run U fl (lit_str w) k s
    = if Str.startswith w (rest s)
      then k {| rest := skipn (length w) (rest s); groups := groups s |}
      else None.
Proof.
  induction w as [|c w IH]; intros k [rs gs].
  - reflexivity.
  - assert (Step : forall k',
               run U fl (Atom (ALit c)) k' {| rest := rs; groups := gs |}
               = match rs with
                 | ch :: t => if (c =? ch)%N
                              then k' {| rest := t; groups := gs |} else None
                 | [] => None
                 end).
    { intros k'. simpl. destruct rs as [|ch t]; [reflexivity|].
      unfold lit_ok. rewrite Hcase. now rewrite N.eqb_sym. }
    destruct w as [|c' w].
    + simpl lit_str. rewrite Step. simpl.
      destruct rs as [|ch t]; [reflexivity|].
      now destruct (c =? ch)%N.
    + change (lit_str (c :: c' :: w))
        with (Seq (Atom (ALit c)) (lit_str (c' :: w))).
      change (run U fl (Seq (Atom (ALit c)) (lit_str (c' :: w))) k
                {| rest := rs; groups := gs |})
        with (run U fl (Atom (ALit c)) (run U fl (lit_str (c' :: w)) k)
                {| rest := rs; groups := gs |}).
      rewrite Step. destruct rs as [|ch t]; [reflexivity|].
      cbn [Str.startswith rest groups].
      destruct (c =? ch)%N; [|reflexivity].
      rewrite IH. reflexivity.
Qed.

(** A lazy [.*?] under [DOTALL] can always run on to the end of the
    text, so it succeeds when its continuation does there. *)
Lemma star_lazy_any (Hdot : dotall fl = true) (k : mstate -> option mstate)
  (Hk : forall s', rest s' = [] -> k s' <> None) :
  forall fuel s,
    length (rest s) <= fuel ->
    star_loop (run U fl (Atom AAny)) false k fuel s <> None.
Proof.
  induction fuel as [|fuel IH]; intros [rs gs] Hlen; cbn [star_loop].
  - apply Hk. cbn [rest] in *. destruct rs; [reflexivity | simpl in Hlen; lia].
  - destruct (k {| rest := rs; groups := gs |}) eqn:E; cbn [orelse];
      [discriminate|].
    rewrite run_atom. cbn [rest groups atom_ok] in *.
    destruct rs as [|c t]; [now apply Hk in E|].
    rewrite Hdot. cbn [orb].
    replace (length t <? length (c :: t)) with true
      by (symmetry; apply Nat.ltb_lt; simpl; lia).
    apply IH. simpl in *. lia.
Qed.

End ReFacts.

(* ================================================================== *)
(** ** Facts about dictionaries and strings *)

Section DictFacts.

Lemma str_eqb_refl (a : str) : str_eqb a a = true.
Proof. induction a as [|c a IH]; simpl; [reflexivity|]. now rewrite N.eqb_refl. Qed.

Lemma str_eqb_eq (a b : str) : str_eqb a b = true <-> a = b.
Proof.
  split; [|intros ->; apply str_eqb_refl].
  revert b. induction a as [|c a IH]; intros [|d b] H; simpl in H;
    try discriminate; [reflexivity|].
  apply andb_prop in H. destruct H as [H1 H2].
  apply N.eqb_eq in H1. apply IH in H2. now subst.
Qed.

Lemma get_set_same (k : str) (v : pyval) (d : Dict.t) :
  Dict.get k (Dict.set k v d) = Some v.
Proof.
  induction d as [|[k' v'] d IH]; simpl.
  - now rewrite str_eqb_refl.
  - destruct (str_eqb k k') eqn:E; simpl; rewrite E; [reflexivity | exact IH].
Qed.

Lemma get_set_other (k k0 : str) (v : pyval) (d : Dict.t) :
  str_eqb k0 k = false ->
  Dict.get k0 (Dict.set k v d) = Dict.get k0 d.
Proof.
  intros Hne. induction d as [|[k' v'] d IH]; simpl.
  - now rewrite Hne.
  - destruct (str_eqb k k') eqn:E; simpl.
    + apply str_eqb_eq in E. subst k'. now rewrite Hne.
    + now rewrite IH.
Qed.

(** Checking a property of every code point below a bound. *)
Lemma N_below_check (P : N -> bool) (b : N) :
  forallb P (map N.of_nat (seq 0 (N.to_nat b))) = true ->
  forall c, (c < b)%N -> P c = true.
Proof.
  intros H c Hc. rewrite forallb_forall in H. apply H.
  apply in_map_iff. exists (N.to_nat c). split; [apply N2Nat.id|].
  apply in_seq. lia.
Qed.

End DictFacts.

Section StripFacts.

Lemma lstrip_suffix (s : str) : exists pre, s = pre ++ Str.lstrip s.
Proof.
  induction s as [|c s [pre IH]]; simpl; [now exists []|].
  destruct (Str.isspace c); [|now exists []].
  exists (c :: pre). simpl. now f_equal.
Qed.

Lemma lstrip_head (s : str) :
  match Str.lstrip s with
  | [] => True
  | c :: _ => Str.isspace c = false
  end.
Proof.
  induction s as [|c s IH]; simpl; [exact I|].
  destruct (Str.isspace c) eqn:E; [exact IH | exact E].
Qed.

Lemma forallb_lstrip (p : N -> bool) (s : str) :
  forallb p s = true -> forallb p (Str.lstrip s) = true.
Proof.
  intros H. destruct (lstrip_suffix s) as [pre E].
  rewrite E, forallb_app in H. now apply andb_prop in H.
Qed.

Lemma forallb_rev_true (p : N -> bool) (s : str) :
  forallb p s = true -> forallb p (rev s) = true.
Proof.
  rewrite !forallb_forall. intros H x Hx. apply H. now apply in_rev.
Qed.

Lemma forallb_strip (p : N -> bool) (s : str) :
  forallb p s = true -> forallb p (Str.strip s) = true.
Proof.
  intros H. unfold Str.strip, Str.rstrip.
  now apply forallb_rev_true, forallb_lstrip, forallb_rev_true, forallb_lstrip.
Qed.

Lemma strip_first (s : str) (c : N) :
  hd_error (Str.strip s) = Some c -> Str.isspace c = false.
Proof.
  unfold Str.strip, Str.rstrip. intros H.
  destruct (lstrip_suffix (rev (Str.lstrip s))) as [q F].
  pose proof (lstrip_head s) as Hh.
  set (l := Str.lstrip s) in *. set (r := Str.lstrip (rev l)) in *.
  assert (El : l = rev r ++ rev q)
    by (now rewrite <- rev_app_distr, <- F, rev_involutive).
  destruct (rev r) as [|x xs]; [discriminate|].
  simpl in H. injection H as ->. rewrite El in Hh. exact Hh.
Qed.

Lemma strip_last (s : str) (c : N) :
  hd_error (rev (Str.strip s)) = Some c -> Str.isspace c = false.
Proof.
  unfold Str.strip, Str.rstrip. rewrite rev_involutive. intros H.
  pose proof (lstrip_head (rev (Str.lstrip s))) as Hh.
  destruct (Str.lstrip (rev (Str.lstrip s))); [discriminate|].
  simpl in H. now injection H as ->.
Qed.

End StripFacts.

(* ================================================================== *)
(** ** [parse_gemini_response]: the scalar fields *)

Section EntityFacts.

Import Re BlueBook Spec.

Variable U : Unicode.

(** The class of the name patterns, spelled out. *)
Lemma name_class_ok (c : N) :
  atom_ok U IGNORECASE name_class c = name_char c.
Proof.
  destruct (N.ltb_spec c 8491%N) as [Hlt | Hge].
  - apply eqb_prop.
    revert c Hlt.
    apply (N_below_check
             (fun c => eqb (atom_ok U IGNORECASE name_class c) (name_char c))).
    vm_compute. reflexivity.
  - assert (L1 : Str.is_ascii_upper c = false).
    { unfold Str.is_ascii_upper. apply andb_false_intro2, N.leb_gt. lia. }
    assert (L2 : Str.is_ascii_lower c = false).
    { unfold Str.is_ascii_lower. apply andb_false_intro2, N.leb_gt. lia. }
    assert (E : forall n, (n < 8491)%N -> (c =? n)%N = false).
    { intros n Hn. apply N.eqb_neq. lia. }
    assert (Lo : sre_lower c = c).
    { unfold sre_lower. rewrite L1, !E by lia. reflexivity. }
    assert (Up : sre_upper c = c).
    { unfold sre_upper. rewrite L2, !E by lia. reflexivity. }
    unfold name_char, Str.is_ascii_letter, in_list.
    cbn [atom_ok name_class existsb item_ok ignorecase IGNORECASE xorb].
    unfold range_ok. rewrite Lo, Up, L1, L2.
    change (chr "A") with 65%N. change (chr "Z") with 90%N.
    change (chr "a") with 97%N. change (chr "z") with 122%N.
    fold (Str.is_ascii_upper c). fold (Str.is_ascii_lower c).
    rewrite L1, L2. cbn [orb existsb]. rewrite !E by lia.
    now rewrite !orb_false_r.
Qed.

Lemma forallb_name_class (s : str) :
  forallb (atom_ok U IGNORECASE name_class) s = forallb name_char s.
Proof.
  induction s as [|c s IH]; cbn [forallb]; [reflexivity|].
  now rewrite IH, name_class_ok.
Qed.

(** Every pattern of [patterns] is a label followed by [:?], [\s*] and
    the group: it captures group 1 whenever it matches. *)
Lemma labelled_group (fl : flags) (label o w x : regex) (s : str) (m : mstate) :
  match_at U fl (Seq label (Seq o (Seq w (Group 1 x)))) s = Some m ->
  exists pre g, s = pre ++ g ++ rest m /\ group_of 1 (groups m) = Some g.
Proof.
  unfold match_at. intros H. rewrite run_seq in H.
  apply run_reaches in H. destruct H as (s1 & [p1 R1] & H).
  rewrite run_seq in H.
  apply run_reaches in H. destruct H as (s2 & [p2 R2] & H).
  rewrite run_seq in H.
  apply run_reaches in H. destruct H as (s3 & [p3 R3] & H).
  apply run_group_last in H. destruct H as (g & R4 & H).
  exists (p1 ++ p2 ++ p3), g. split; [|exact H].
  simpl in R1. rewrite R1, R2, R3, R4. now rewrite <- !app_assoc.
Qed.

(** What a name pattern captures: a non-empty run of [name_char]
    characters that stops at the end of the text or in front of a
    character that is not one. *)
Lemma name_tail_capture (label : regex) (s : str) (m : mstate) :
  match_at U IGNORECASE (Seq label name_tail) s = Some m ->
  exists pre g,
    s = pre ++ g ++ rest m /\ group_of 1 (groups m) = Some g /\
    g <> [] /\ forallb name_char g = true /\
    match rest m with
    | [] => True
    | c :: _ => name_char c = false
    end.
Proof.
  unfold match_at, name_tail. intros H. rewrite run_seq in H.
  apply run_reaches in H. destruct H as (s1 & [p1 R1] & H).
  rewrite run_seq in H.
  apply run_reaches in H. destruct H as (s2 & [p2 R2] & H).
  rewrite run_seq in H.
  apply run_reaches in H. destruct H as (s3 & [p3 R3] & H).
  rewrite run_group_plus_atom in H.
  destruct (rest s3) as [|c t] eqn:E3; [discriminate|].
  destruct (atom_ok U IGNORECASE name_class c) eqn:Ec; [|discriminate].
  injection H as <-. cbn [rest groups group_of Nat.eqb].
  set (ok := atom_ok U IGNORECASE name_class) in *.
  exists (p1 ++ p2 ++ p3), (c :: takewhile ok t).
  repeat split.
  - simpl in R1. rewrite R1, R2, R3. rewrite <- !app_assoc. do 3 f_equal.
    simpl. now rewrite takewhile_dropwhile.
  - discriminate.
  - unfold ok. rewrite <- forallb_name_class. fold ok. simpl.
    now rewrite Ec, takewhile_all.
  - pose proof (dropwhile_head ok t) as Hd.
    destruct (dropwhile ok t) as [|d rs]; [exact I|].
    unfold ok in Hd. now rewrite name_class_ok in Hd.
Qed.

Lemma captured_Some (label o w x : regex) (reply : str) (m : mstate) :
  scan U IGNORECASE (Seq label (Seq o (Seq w (Group 1 x)))) reply = Some m ->
  exists g, group_of 1 (groups m) = Some g.
Proof.
  intros H. apply scan_suffix in H. destruct H as (sk & s' & _ & H).
  apply labelled_group in H. destruct H as (pre & g & _ & H). eauto.
Qed.

(** Lines 81-83 for one pattern of that shape. *)
Lemma extract_entity_update (reply : str) (d : Dict.t) (key : str)
  (label o w x : regex) :
  let r := Seq label (Seq o (Seq w (Group 1 x))) in
  extract_entity U (PyStr reply) d (key, r) = Ok (update U reply d (key, r)).
Proof.
  intros r. unfold extract_entity, update, captured. cbn [fst snd search bind].
  destruct (scan U IGNORECASE r reply) as [m|] eqn:E; [|reflexivity].
  apply captured_Some in E. destruct E as [g E].
  unfold group. rewrite E. reflexivity.
Qed.

(** The loop of lines 80-83 never raises. *)
Lemma extract_entities_entities (reply : str) :
  extract_entities U (PyStr reply) = Ok (entities U reply).
Proof.
  unfold extract_entities, entities, patterns, name_tail, date_tail.
  cbn [for_each fold_left].
  repeat (rewrite extract_entity_update; cbn [bind]).
  reflexivity.
Qed.

Lemma get_update_other (reply : str) (d : Dict.t) (kp : str * regex) (k : str) :
  str_eqb k (fst kp) = false ->
  Dict.get k (update U reply d kp) = Dict.get k d.
Proof.
  intros H. unfold update. destruct (captured U (snd kp) reply); [|reflexivity].
  now apply get_set_other.
Qed.

Lemma get_update_same (reply : str) (d : Dict.t) (k : str) (r : regex) :
  Dict.get k (update U reply d (k, r))
  = match captured U r reply with
    | Some g => Some (PyStr (Str.strip g))
    | None => Dict.get k d
    end.
Proof.
  unfold update. cbn [fst snd]. destruct (captured U r reply); [|reflexivity].
  apply get_set_same.
Qed.

End EntityFacts.

(* ================================================================== *)
(** ** [parse_gemini_response]: the trades *)

Section TradeFacts.

Import Re BlueBook Spec.

Variable U : Unicode.

(** At the end of the text the look-ahead of [trades_pattern] succeeds
    through [$]. *)
Lemma trades_lookahead_at_end (k : mstate -> option mstate) (s : mstate) :
  rest s = [] ->
  (forall s', k s' <> None) ->
  run U DOTALL (Lookahead (Group 2 (Alt (lit "Trade:") Dollar))) k s <> None.
Proof.
  intros E Hk. destruct s as [rs gs]. simpl in E. subst rs.
  simpl. apply Hk.
Qed.

(** [trades_pattern] matches at a position exactly when the text there
    starts with [Trade:]. *)
Lemma trades_match_at (s : str) :
  if Str.startswith (cp "Trade:") s
  then match_at U DOTALL (Group 0 trades_pattern) s <> None
  else match_at U DOTALL (Group 0 trades_pattern) s = None.
Proof.
  unfold match_at, trades_pattern.
  rewrite run_group, run_seq, run_group, run_seq.
  change (lit "Trade:") with (lit_str (cp "Trade:")).
  rewrite run_lit_str by reflexivity. cbn [rest groups].
  destruct (Str.startswith (cp "Trade:") s); [|reflexivity].
  rewrite run_star. apply star_lazy_any; [reflexivity | | lia].
  intros s' E. apply trades_lookahead_at_end; [exact E | discriminate].
Qed.

Lemma scan_contains (r : regex) (fl : flags) (w : str)
  (H : forall s, if Str.startswith w s
                 then match_at U fl r s <> None
                 else match_at U fl r s = None) (s : str) :
  if Str.contains w s
  then scan U fl r s <> None
  else scan U fl r s = None.
Proof.
  induction s as [|c s IH]; cbn [Str.contains scan].
  - specialize (H []). destruct (Str.startswith w []); simpl.
    + now destruct (match_at U fl r []).
    + now rewrite H.
  - specialize (H (c :: s)). destruct (Str.startswith w (c :: s)); simpl.
    + now destruct (match_at U fl r (c :: s)).
    + rewrite H. exact IH.
Qed.

(** [re.findall] with the two-group pattern: no element without
    [Trade:] in the text, tuples otherwise. *)
Lemma findall_trades (reply : str) :
  if Str.contains (cp "Trade:") reply
  then exists a b l,
      findall U DOTALL trades_pattern (PyStr reply) = Ok (PyTuple [a; b] :: l)
  else findall U DOTALL trades_pattern (PyStr reply) = Ok [].
Proof.
  pose proof (scan_contains (Group 0 trades_pattern) DOTALL (cp "Trade:")
                trades_match_at reply) as H.
  cbn [findall findall_from].
  destruct (Str.contains (cp "Trade:") reply).
  - destruct (scan U DOTALL (Group 0 trades_pattern) reply) as [m|];
      [|contradiction].
    do 3 eexists. reflexivity.
  - now rewrite H.
Qed.

(** The loop of lines 87-107 stops at its first element when that is
    a tuple: [re.search] wants a string. *)
Lemma extract_trade_tuple (pm : list PageRecord) (d : Dict.t)
  (l l' : list pyval) :
  for_each (extract_trade U pm) (PyTuple l :: l') d = Raise TypeError.
Proof. reflexivity. Qed.

(** The function on a [str], case by case. *)
Lemma parse_gemini_response_str (reply : str) (pm : list PageRecord) :
  parse_gemini_response U (PyStr reply) pm
  = match reply with
    | [] => Ok PyNone
    | _ :: _ =>
        if Str.contains (cp "Trade:") reply then Raise TypeError
        else Ok (PyDict (entities U reply))
    end.
Proof.
  destruct reply as [|c reply]; [reflexivity|].
  unfold parse_gemini_response. cbn [truthy length Nat.eqb negb].
  rewrite extract_entities_entities. cbn [bind].
  pose proof (findall_trades (c :: reply)) as H.
  destruct (Str.contains (cp "Trade:") (c :: reply)).
  - destruct H as (a & b & l & ->). cbn [bind].
    now rewrite extract_trade_tuple.
  - rewrite H. reflexivity.
Qed.

End TradeFacts.

(* ================================================================== *)
(** ** The body of the loop over the trades, on a string *)

Section TradeBodyFacts.

Import Re BlueBook Spec.

Variable U : Unicode.

Lemma fold_collect_page (trade_name : str) (pm : list PageRecord) :
  forall acc,
    fold_left (collect_page U trade_name) pm acc
    = acc ++ map (fun p => PyStr (citation p))
                 (filter (mentions U trade_name) pm).
Proof.
  induction pm as [|p pm IH]; intros acc; cbn [fold_left filter].
  - now rewrite app_nil_r.
  - rewrite IH. unfold collect_page, mentions.
    destruct (Str.contains (lower U trade_name) (lower U (page_text p))).
    + cbn [map]. now rewrite <- app_assoc.
    + reflexivity.
Qed.

(** Lines 100-102 as a comprehension. *)
Lemma find_pages_filter (trade_name : str) (pm : list PageRecord) :
  find_pages U trade_name pm
  = map (fun p => PyStr (citation p)) (filter (mentions U trade_name) pm).
Proof. unfold find_pages. now rewrite fold_collect_page. Qed.

(** With one group in the pattern, [findall] gives strings. *)
Lemma findall_from_strs (fl : flags) (r : regex) (H : ngroups r = 1) :
  forall fuel s, exists xs, findall_from U fl fuel r s = map PyStr xs.
Proof.
  induction fuel as [|fuel IH]; intros s; cbn [findall_from].
  - now exists [].
  - destruct (scan U fl (Group 0 r) s) as [m|]; [|now exists []].
    assert (I : exists x, findall_item r m = PyStr x).
    { unfold findall_item. rewrite H. unfold group_or_empty.
      destruct (group_of 1 (groups m)); eauto. }
    destruct I as [x ->].
    destruct (length (rest m) <? length s).
    + destruct (IH (rest m)) as [xs ->]. now exists (x :: xs).
    + destruct (rest m) as [|c t]; [now exists [x]|].
      destruct (IH t) as [xs ->]. now exists (x :: xs).
Qed.

Lemma for_each_collect_resources (xs : list str) :
  forall acc,
    for_each collect_resources (map PyStr xs) acc
    = Ok (acc ++ map (fun x => PyStr (Str.strip x)) xs).
Proof.
  induction xs as [|x xs IH]; intros acc; cbn [map for_each].
  - now rewrite app_nil_r.
  - unfold collect_resources at 1. cbn [str_strip bind].
    rewrite IH. now rewrite <- app_assoc.
Qed.

End TradeBodyFacts.

(* ================================================================== *)
(** ** [call_gemini_api] *)

Section ClientFacts.

Import BlueBook Spec.

Lemma first_text_lacks_key (body : pyval) :
  lacks_key body -> first_text body = Ok (PyStr []).
Proof.
  intros H. unfold first_text.
  destruct H as [d H1 | d c l H1 H2 | d c ct l H1 H2 H3
                | d c ct part l l' H1 H2 H3 H4];
    cbn [py_get bind]; rewrite H1; cbn [py_first py_get bind].
  - reflexivity.
  - now rewrite H2.
  - rewrite H2. cbn [py_get bind]. now rewrite H3.
  - rewrite H2. cbn [py_get bind]. rewrite H3. cbn [py_first py_get bind].
    now rewrite H4.
Qed.

Lemma read_reply_failure (r : reply) :
  api_failure r -> exists e, read_reply r = Raise e.
Proof.
  destruct r as [e | status json]; cbn [api_failure read_reply].
  - eauto.
  - unfold raise_for_status. intros [H | ->].
    + replace ((400 <=? status) && (status <? 600))%Z with true;
        [cbn; eauto|].
      symmetry. apply andb_true_intro. split;
        [apply Z.leb_le | apply Z.ltb_lt]; lia.
    + destruct ((400 <=? status) && (status <? 600))%Z; cbn [bind]; eauto.
Qed.

Lemma call_gemini_api_log (net : network) (api_key prompt : str) :
  call_gemini_api net api_key prompt
  = let post := Ev_post (request_url api_key) request_headers
                        (request_data prompt) in
    match read_reply (net (request_url api_key) request_headers
                          (request_data prompt)) with
    | Ok v => ([post], Ok v)
    | Raise e =>
        ([post; Ev_error_exn (cp "Error calling Gemini API: ") e], Ok PyNone)
    end.
Proof.
  unfold call_gemini_api, request, io_bind, emit, lift.
  now destruct (read_reply _).
Qed.


End ClientFacts.

(* ================================================================== *)
(** ** The properties of the specification *)

Section Properties.

Import Re BlueBook Spec.

(** C8. The Text Extractor gives one PageRecord (document name, page
    number, page text) for each page whose extracted text is a
    non-empty string, document after document and page after page;
    a page whose text is empty or [None] gives none. So the number of
    records is the number of pages with text (none at all for documents
    without any), the records of a document are exactly its pages with
    text under their 1-based page numbers, and these numbers increase
    along the list. The function is total: it raises nothing. *)
Theorem extract_pdf_text_records (uploaded_files : list Document) :
  let page_mappings := snd (extract_pdf_text uploaded_files) in
  page_mappings = flat_map records_of uploaded_files
  /\ length page_mappings
     = list_sum (map (fun f => length (filter has_text (doc_pages f)))
                     uploaded_files)
  /\ (forall f r,
        In r (records_of f) <->
        exists i t, nth_error (doc_pages f) i = Some (Some t) /\ t <> [] /\
                    r = {| file_name := doc_name f;
                           page_num := 1 + Z.of_nat i;
                           page_text := t |})
  /\ (forall f i j a b,
        nth_error (records_of f) i = Some a ->
        nth_error (records_of f) j = Some b ->
        (i < j)%nat -> (1 <= page_num a < page_num b)%Z).
Proof.
  assert (E : snd (extract_pdf_text uploaded_files)
              = flat_map records_of uploaded_files)
    by (unfold extract_pdf_text; now rewrite extract_file_fold).
  cbv zeta. rewrite E. repeat split.
  - clear E. induction uploaded_files as [|f fs IH]; [reflexivity|].
    cbn [flat_map map list_sum fold_right]. rewrite length_app, IH.
    unfold records_of at 1. now rewrite page_records_length.
  - now apply page_records_In.
  - now apply page_records_In.
  - eapply page_records_increasing; eauto.
  - eapply page_records_increasing; eauto.
Qed.

(** C7. Whatever the PageRecord sequence, the Field Extractor returns
    [None], and raises nothing, when the reply is [None] or the empty
    string. *)
Theorem parse_empty_reply (U : Unicode) (page_mappings : list PageRecord) :
  parse_gemini_response U PyNone page_mappings = Ok PyNone
  /\ parse_gemini_response U (PyStr []) page_mappings = Ok PyNone.
Proof. split; reflexivity. Qed.

(** C9. On a reply that is a string the Field Extractor raises exactly
    when the reply contains the substring [Trade:], and what it raises
    then is the [TypeError] of [re.search] applied to a tuple of the
    two-group [findall]; on every other string it returns. *)
Theorem parse_raises_iff_trade (U : Unicode) (reply : str)
  (page_mappings : list PageRecord) :
  if Str.contains (cp "Trade:") reply
  then parse_gemini_response U (PyStr reply) page_mappings = Raise TypeError
  else exists v, parse_gemini_response U (PyStr reply) page_mappings = Ok v.
Proof.
  rewrite parse_gemini_response_str.
  destruct reply as [|c reply]; [cbn; eauto|].
  destruct (Str.contains (cp "Trade:") (c :: reply)); eauto.
Qed.

(** C1 (scenario D). On the reply with the two trades Plumbing and
    HVAC, and no PageRecord, the Field Extractor returns no result:
    [findall] gives the two tuples [(chunk, "Trade:")] and [(chunk, "")]
    and [re.search] raises [TypeError] on the first. *)
Theorem scenario_D_raises (U : Unicode) :
  findall U DOTALL trades_pattern (PyStr reply_D)
  = Ok [ PyTuple [PyStr (cp "Trade: Plumbing" ++ nl ++ cp "Resources: pipes" ++ nl);
                  PyStr (cp "Trade:")];
         PyTuple [PyStr (cp "Trade: HVAC" ++ nl ++ cp "Resources: ducts");
                  PyStr []] ]
  /\ parse_gemini_response U (PyStr reply_D) [] = Raise TypeError.
Proof. split; vm_compute; reflexivity. Qed.

(** C3 (scenario A). On the reply of scenario A with its one PageRecord
    the Field Extractor returns no result, it raises [TypeError] at the
    first trade chunk; and before that the loop over the patterns has
    stored the contractor and the client with the following line's
    label attached, since [\s] in the name class matches the newline. *)
Theorem scenario_A_raises (U : Unicode) :
  parse_gemini_response U (PyStr reply_A) pages_A = Raise TypeError
  /\ (exists d,
        extract_entities U (PyStr reply_A) = Ok d
        /\ Dict.get (cp "contractor") d
           = Some (PyStr (cp "Acme Builders" ++ nl ++ cp "Client"))
        /\ Dict.get (cp "client") d
           = Some (PyStr (cp "Jane Doe" ++ nl ++ cp "Trade"))).
Proof.
  split; [vm_compute; reflexivity|].
  eexists. split; [vm_compute; reflexivity|]. split; reflexivity.
Qed.

(** The keys [project_start_date] and [project_end_date] keep the
    empty string in every result that the Field Extractor returns. *)
Lemma project_dates_stay_empty (U : Unicode) (reply : str)
  (page_mappings : list PageRecord) (d : Dict.t) :
  parse_gemini_response U (PyStr reply) page_mappings = Ok (PyDict d) ->
  Dict.get (cp "project_start_date") d = Some (PyStr [])
  /\ Dict.get (cp "project_end_date") d = Some (PyStr []).
Proof.
  rewrite parse_gemini_response_str.
  destruct reply as [|c reply]; [discriminate|].
  destruct (Str.contains (cp "Trade:") (c :: reply)); [discriminate|].
  intros H. injection H as <-.
  unfold entities, patterns. cbn [fold_left].
  split; repeat (rewrite get_update_other by reflexivity); reflexivity.
Qed.

(** The [trades] mapping is empty in every result that the Field
    Extractor returns: a reply with a trade in it raises. *)
Lemma returned_trades_empty (U : Unicode) (reply : str)
  (page_mappings : list PageRecord) (d : Dict.t) :
  parse_gemini_response U (PyStr reply) page_mappings = Ok (PyDict d) ->
  Dict.get (cp "trades") d = Some (PyDict []).
Proof.
  rewrite parse_gemini_response_str.
  destruct reply as [|c reply]; [discriminate|].
  destruct (Str.contains (cp "Trade:") (c :: reply)); [discriminate|].
  intros H. injection H as <-.
  unfold entities, patterns. cbn [fold_left].
  repeat (rewrite get_update_other by reflexivity). reflexivity.
Qed.

(** C2. The reply [Start Date: 1/2/2024] (and likewise
    [Completion: 3/4/2025]) leaves [project_start_date] (and
    [project_end_date]) at the empty string: the matched token is
    stored under the key of [patterns], [start_date] (and [end_date]),
    which the result did not have. *)
Theorem date_stored_under_other_key :
  (exists d,
      parse_gemini_response ascii_tables (PyStr (cp "Start Date: 1/2/2024")) []
      = Ok (PyDict d)
      /\ Dict.get (cp "project_start_date") d = Some (PyStr [])
      /\ Dict.get (cp "start_date") d = Some (PyStr (cp "1/2/2024"))
      /\ Dict.get (cp "start_date") initial_result = None)
  /\ (exists d,
         parse_gemini_response ascii_tables (PyStr (cp "Completion: 3/4/2025")) []
         = Ok (PyDict d)
         /\ Dict.get (cp "project_end_date") d = Some (PyStr [])
         /\ Dict.get (cp "end_date") d = Some (PyStr (cp "3/4/2025"))
         /\ Dict.get (cp "end_date") initial_result = None).
Proof.
  split; eexists; (split; [vm_compute; reflexivity|]); repeat split; reflexivity.
Qed.

(** X16. The citation loop (lines 99-106) inside the body of the loop
    over the trades. When that body is given a chunk that is a string in
    which a trade name is found, the entry it stores under that name
    has as pages the citations [<document name>: Page <page number>] of
    exactly the PageRecords whose text contains the trade name, both
    lower-cased, in the order of the PageRecords. *)
Theorem extract_trade_pages (U : Unicode) (chunk trade_name : str)
  (page_mappings : list PageRecord) (result trades : Dict.t) :
  Dict.get (cp "trades") result = Some (PyDict trades) ->
  trade_name_of U chunk = Some trade_name ->
  let pages := map (fun p => PyStr (citation p))
                   (filter (mentions U trade_name) page_mappings) in
  (exists resources,
      extract_trade U page_mappings result (PyStr chunk)
      = Ok (Dict.set (cp "trades")
              (PyDict (Dict.set trade_name
                         (PyDict [ (cp "resources", PyList resources);
                                   (cp "pages", PyList pages) ])
                         trades))
              result))
  /\ (forall c,
        In (PyStr c) pages <->
        exists p, In p page_mappings
                  /\ Str.contains (lower U trade_name) (lower U (page_text p))
                     = true
                  /\ c = file_name p ++ cp ": Page " ++ Str.of_int (page_num p)).
Proof.
  intros Ht Hn pages. split.
  - unfold trade_name_of in Hn. unfold extract_trade. cbn [search bind].
    destruct (scan U NOFLAG trade_name_pattern chunk) as [m|] eqn:E;
      [|discriminate].
    unfold group.
    destruct (group_of 1 (groups m)) as [g|] eqn:G; [|discriminate].
    cbn [option_map] in Hn. injection Hn as <-.
    cbn [str_strip bind findall].
    destruct (findall_from_strs U NOFLAG resources_pattern eq_refl
                (S (length chunk)) chunk) as [xs ->].
    rewrite for_each_collect_resources. cbn [bind app].
    rewrite find_pages_filter. unfold set_trade. rewrite Ht.
    eexists. reflexivity.
  - intros c. unfold pages. rewrite in_map_iff. split.
    + intros (p & E & Hp). apply filter_In in Hp. destruct Hp as [Hp Hm].
      injection E as <-. exists p. repeat split; auto.
    + intros (p & Hp & Hm & ->). exists p. split; [reflexivity|].
      apply filter_In. split; auto.
Qed.

(** C4. On the reply [Trade: Electrical], [Resources: wiring, panels]
    with the PageRecord of scenario A, whose text contains the trade
    name in lower case, no citation is stored: the Field Extractor
    raises [TypeError] at line 88, before it reaches the loop of lines
    100-102. The trade name is found in that reply taken as a string,
    and the loop of lines 100-102 run on it gives [spec.pdf: Page 3]. *)
Theorem citation_loop_not_reached :
  trade_name_of ascii_tables chunk_electrical = Some (cp "Electrical")
  /\ map (mentions ascii_tables (cp "Electrical")) pages_A = [true]
  /\ find_pages ascii_tables (cp "Electrical") pages_A
     = [PyStr (cp "spec.pdf: Page 3")]
  /\ parse_gemini_response ascii_tables (PyStr chunk_electrical) pages_A
     = Raise TypeError.
Proof. repeat split; vm_compute; reflexivity. Qed.

(** C5, as amended. After a response with a success status whose JSON
    body is an object that lacks one of the keys [candidates],
    [content], [parts], [text] where line 48 reads it, every value read
    before it being an object (where a key is read) or a list that
    starts with an object (where [[0]] is read), the Model Client
    returns the empty string, having shown no error. *)
Theorem first_text_missing_key (net : network) (api_key prompt : str)
  (status_code : Z) (body : pyval) :
  net (request_url api_key) request_headers (request_data prompt)
  = Response status_code (Some body) ->
  (status_code < 400 \/ 600 <= status_code)%Z ->
  lacks_key body ->
  call_gemini_api net api_key prompt
  = ([Ev_post (request_url api_key) request_headers (request_data prompt)],
     Ok (PyStr [])).
Proof.
  intros Hnet Hst Hbody. rewrite call_gemini_api_log, Hnet. cbv zeta.
  cbn [read_reply]. unfold raise_for_status.
  replace ((400 <=? status_code) && (status_code <? 600))%Z with false.
  - cbn [bind]. now rewrite first_text_lacks_key.
  - symmetry. apply andb_false_iff.
    destruct Hst; [left; apply Z.leb_gt | right; apply Z.ltb_ge]; lia.
Qed.

(** C6. When the API call fails (no response, a status from 400 to 599,
    or a body that is not JSON) the Model Client shows one error,
    returns [None] and raises nothing; and a pipeline whose prompt that
    was does not enter the Field Extractor, and ends without raising. *)
Theorem api_failure_no_parse (net : network) (api_key prompt : str) :
  api_failure (net (request_url api_key) request_headers (request_data prompt)) ->
  (exists e,
      call_gemini_api net api_key prompt
      = ([Ev_post (request_url api_key) request_headers (request_data prompt);
          Ev_error_exn (cp "Error calling Gemini API: ") e],
         Ok PyNone))
  /\ (forall U uploaded_files button,
        build_prompt (fst (extract_pdf_text uploaded_files)) = prompt ->
        (forall r, ~ In (Ev_parse r)
                        (fst (analyze U net uploaded_files api_key button)))
        /\ snd (analyze U net uploaded_files api_key button) = Ok tt).
Proof.
  intros Hf. apply read_reply_failure in Hf. destruct Hf as [e He].
  assert (Hc : call_gemini_api net api_key prompt
               = ([Ev_post (request_url api_key) request_headers
                     (request_data prompt);
                   Ev_error_exn (cp "Error calling Gemini API: ") e],
                  Ok PyNone))
    by (rewrite call_gemini_api_log, He; reflexivity).
  split; [eauto|].
  intros U files button Hp. unfold analyze.
  destruct (negb (length files =? 0) && truthy (PyStr api_key)).
  - destruct button.
    + destruct (extract_pdf_text files) as [texts pm]. cbn [fst] in Hp.
      rewrite Hp, Hc. cbn. split; [|reflexivity].
      intros r [H | [H | [H | []]]]; discriminate.
    + cbn. split; [|reflexivity]. intros r [].
  - cbn. split; [|reflexivity]. intros r [H | []]. discriminate.
Qed.

(** C10, as amended. In every result that the Field Extractor returns,
    each of the four name fields is a string made only of the
    characters that [[A-Za-z\s]] admits under [IGNORECASE] (the ASCII
    letters, the four letters U+0130, U+0131, U+017F and U+212A, and
    white space), without white space at either end; and unless it is
    empty it is the stripped form of a block of such characters of the
    reply that ends at the end of the reply or in front of the first
    character that is not one of them. *)
Theorem name_fields_shape (U : Unicode) (reply : str)
  (page_mappings : list PageRecord) (d : Dict.t) (key : str) :
  In key name_keys ->
  parse_gemini_response U (PyStr reply) page_mappings = Ok (PyDict d) ->
  exists v,
    Dict.get key d = Some (PyStr v)
    /\ forallb name_char v = true
    /\ (forall c, hd_error v = Some c \/ hd_error (rev v) = Some c ->
                  Str.isspace c = false)
    /\ (v = [] \/
        exists pre g post,
          reply = pre ++ g ++ post /\ g <> [] /\ forallb name_char g = true
          /\ v = Str.strip g
          /\ match post with
             | [] => True
             | c :: _ => name_char c = false
             end).
Proof.
  intros Hk. rewrite parse_gemini_response_str.
  destruct reply as [|c0 reply0]; [discriminate|].
  set (reply := c0 :: reply0).
  destruct (Str.contains (cp "Trade:") reply); [discriminate|].
  intros H. injection H as <-.
  assert (Shape : forall label,
             match captured U (Seq label name_tail) reply with
             | Some g =>
                 exists pre post,
                 reply = pre ++ g ++ post /\ g <> []
                 /\ forallb name_char g = true
                 /\ match post with
                    | [] => True
                    | c :: _ => name_char c = false
                    end
             | None => True
             end).
  { intros label. unfold captured.
    destruct (scan U IGNORECASE (Seq label name_tail) reply) as [m|] eqn:E;
      [|exact I].
    apply scan_suffix in E. destruct E as (sk & s' & Es & E).
    apply name_tail_capture in E.
    destruct E as (pre & g & E1 & -> & E3 & E4 & E5).
    exists (sk ++ pre), (rest m). rewrite Es, E1, <- app_assoc. auto. }
  assert (Done : forall g,
             (exists pre post,
                 reply = pre ++ g ++ post /\ g <> []
                 /\ forallb name_char g = true
                 /\ match post with
                    | [] => True
                    | c :: _ => name_char c = false
                    end) ->
             forallb name_char (Str.strip g) = true
             /\ (forall c, hd_error (Str.strip g) = Some c
                           \/ hd_error (rev (Str.strip g)) = Some c ->
                           Str.isspace c = false)
             /\ (Str.strip g = [] \/
                 exists pre g' post,
                   reply = pre ++ g' ++ post /\ g' <> []
                   /\ forallb name_char g' = true
                   /\ Str.strip g = Str.strip g'
                   /\ match post with
                      | [] => True
                      | c :: _ => name_char c = false
                      end)).
  { intros g (pre & post & E1 & E2 & E3 & E4). split; [|split].
    - now apply forallb_strip.
    - intros c [Hc | Hc]; [eapply strip_first | eapply strip_last]; eauto.
    - right. exists pre, g, post. auto. }
  assert (Empty : forallb name_char [] = true
                  /\ (forall c, hd_error (@nil N) = Some c
                                \/ hd_error (rev (@nil N)) = Some c ->
                                Str.isspace c = false)
                  /\ (@nil N = [] \/
                      exists pre g' post,
                        reply = pre ++ g' ++ post /\ g' <> []
                        /\ forallb name_char g' = true
                        /\ [] = Str.strip g'
                        /\ match post with
                           | [] => True
                           | c :: _ => name_char c = false
                           end)).
  { split; [reflexivity|]. split; [|now left].
    intros c [Hc | Hc]; discriminate. }
  unfold entities, patterns. cbn [fold_left].
  destruct Hk as [<- | [<- | [<- | [<- | []]]]];
    repeat (rewrite get_update_other by reflexivity);
    rewrite get_update_same;
    match goal with
    | |- context [captured U (Seq ?l name_tail) reply] =>
        specialize (Shape l);
        destruct (captured U (Seq l name_tail) reply) as [g|]
    end;
    try (exists (Str.strip g); split; [reflexivity | now apply Done]);
    repeat (rewrite get_update_other by reflexivity);
    exists []; (split; [reflexivity | exact Empty]).
Qed.

End Properties.

(* ================================================================== *)
(** ** Instances *)

Section Instances.

Import Re BlueBook Spec.

(** The citation of scenario A: the page that mentions the trade in
    lower case is cited. *)
Lemma extract_trade_pages_witness :
  Dict.get (cp "trades") initial_result = Some (PyDict [])
  /\ trade_name_of ascii_tables chunk_electrical = Some (cp "Electrical")
  /\ (exists resources,
         extract_trade ascii_tables pages_A initial_result
           (PyStr chunk_electrical)
         = Ok (Dict.set (cp "trades")
                 (PyDict (Dict.set (cp "Electrical")
                            (PyDict [ (cp "resources", PyList resources);
                                      (cp "pages",
                                       PyList [PyStr (cp "spec.pdf: Page 3")]) ])
                            []))
                 initial_result)).
Proof.
  split; [reflexivity|]. split; [vm_compute; reflexivity|].
  exact (proj1 (@extract_trade_pages ascii_tables chunk_electrical
                  (cp "Electrical") pages_A initial_result []
                  eq_refl eq_refl)).
Defined.

(** A body without [text] in its first part. *)
Lemma first_text_missing_key_witness :
  always (Response 200 (Some body_no_text))
    (request_url (cp "key")) request_headers (request_data (cp "prompt"))
  = Response 200 (Some body_no_text)
  /\ (200 < 400 \/ 600 <= 200)%Z
  /\ lacks_key body_no_text
  /\ call_gemini_api (always (Response 200 (Some body_no_text)))
       (cp "key") (cp "prompt")
     = ([Ev_post (request_url (cp "key")) request_headers
           (request_data (cp "prompt"))],
        Ok (PyStr [])).
Proof.
  assert (L : lacks_key body_no_text)
    by (eapply lacks_text; reflexivity).
  assert (S : (200 < 400 \/ 600 <= 200)%Z) by (left; reflexivity).
  split; [reflexivity|]. split; [exact S|]. split; [exact L|].
  exact (@first_text_missing_key
           (always (Response 200 (Some body_no_text)))
           (cp "key") (cp "prompt") 200%Z body_no_text eq_refl S L).
Defined.

(** C5, as stated, fails: a success response whose body has an empty
    list of candidates (and so none of the keys [content], [parts],
    [text]) makes the Model Client return [None], not the empty
    string; [[0]] raises [IndexError] inside the [try]. *)
Lemma empty_candidates_gives_none :
  first_text body_no_candidate = Raise IndexError
  /\ call_gemini_api (always (Response 200 (Some body_no_candidate)))
       (cp "key") (cp "prompt")
     = ([Ev_post (request_url (cp "key")) request_headers
           (request_data (cp "prompt"));
         Ev_error_exn (cp "Error calling Gemini API: ") IndexError],
        Ok PyNone)
  /\ snd (call_gemini_api (always (Response 200 (Some body_no_candidate)))
            (cp "key") (cp "prompt"))
     <> Ok (PyStr []).
Proof. repeat split; try reflexivity. discriminate. Qed.

(** HTTP 500 (scenario C) on a run with one uploaded page. *)
Lemma api_failure_no_parse_witness :
  api_failure
    (always (Response 500 None) (request_url (cp "key")) request_headers
       (request_data (build_prompt (fst (extract_pdf_text [one_page_file])))))
  /\ (exists e,
         call_gemini_api (always (Response 500 None)) (cp "key")
           (build_prompt (fst (extract_pdf_text [one_page_file])))
         = ([Ev_post (request_url (cp "key")) request_headers
               (request_data
                  (build_prompt (fst (extract_pdf_text [one_page_file]))));
             Ev_error_exn (cp "Error calling Gemini API: ") e],
            Ok PyNone))
  /\ (forall r,
         ~ In (Ev_parse r)
              (fst (analyze ascii_tables (always (Response 500 None))
                      [one_page_file] (cp "key") true)))
  /\ snd (analyze ascii_tables (always (Response 500 None))
            [one_page_file] (cp "key") true) = Ok tt.
Proof.
  assert (F : api_failure
                (always (Response 500 None) (request_url (cp "key"))
                   request_headers
                   (request_data
                      (build_prompt (fst (extract_pdf_text [one_page_file]))))))
    by (unfold always, api_failure; left; lia).
  split; [exact F|].
  destruct (@api_failure_no_parse (always (Response 500 None)) (cp "key")
              (build_prompt (fst (extract_pdf_text [one_page_file]))) F)
    as [H1 H2].
  split; [exact H1|].
  exact (H2 ascii_tables [one_page_file] true eq_refl).
Defined.

(** The client's name stops in front of the digit. *)
Lemma name_fields_shape_witness :
  In (cp "client") name_keys
  /\ parse_gemini_response ascii_tables (PyStr reply_jane) []
     = Ok (PyDict (entities ascii_tables reply_jane))
  /\ exists v,
      Dict.get (cp "client") (entities ascii_tables reply_jane)
      = Some (PyStr v)
      /\ forallb name_char v = true
      /\ (forall c, hd_error v = Some c \/ hd_error (rev v) = Some c ->
                    Str.isspace c = false)
      /\ (v = [] \/
          exists pre g post,
            reply_jane = pre ++ g ++ post /\ g <> []
            /\ forallb name_char g = true
            /\ v = Str.strip g
            /\ match post with
               | [] => True
               | c :: _ => name_char c = false
               end).
Proof.
  assert (K : In (cp "client") name_keys) by (do 3 right; left; reflexivity).
  assert (P : parse_gemini_response ascii_tables (PyStr reply_jane) []
              = Ok (PyDict (entities ascii_tables reply_jane)))
    by (vm_compute; reflexivity).
  split; [exact K|]. split; [exact P|].
  exact (@name_fields_shape ascii_tables reply_jane [] _ (cp "client") K P).
Defined.

(** C10, as stated, fails: with the Kelvin sign U+212A after [Owner:]
    the client field holds a character that is neither an ASCII letter
    nor white space, since [[A-Za-z]] admits it under [IGNORECASE]. *)
Lemma kelvin_sign_name :
  parse_gemini_response ascii_tables (PyStr reply_kelvin) []
  = Ok (PyDict (Dict.set (cp "client") (PyStr (8490%N :: cp "elvin"))
                  initial_result))
  /\ Str.is_ascii_letter 8490 || Str.isspace 8490 = false
  /\ (8490 > 127)%N.
Proof. repeat split; vm_compute; reflexivity. Qed.

End Instances.

(* ================================================================== *)
(** ** [extract_pdf_text]: the texts and the prompt *)

Section TextFacts.

Import BlueBook Spec Shape.

Lemma extract_page_fold_text (name : str) (pages : list (option str)) :
  forall (n : Z) (text : str) (pm : list PageRecord),
    fst (fold_left (extract_page name) (enumerate n pages) (text, pm))
    = text ++ concat (map marker (page_records name n pages)).
Proof.
  induction pages as [|p pages IH]; intros n text pm; cbn [enumerate fold_left].
  - cbn. now rewrite app_nil_r.
  - destruct p as [[|c t]|]; cbn [extract_page truthy length Nat.eqb negb];
      rewrite IH; cbn [page_records app map concat]; try reflexivity.
    unfold marker, nl. cbn [page_num page_text].
    repeat (first [rewrite <- app_assoc | progress cbn [app]]). reflexivity.
Qed.

Lemma extract_file_fold_text (files : list Document) :
  forall (texts : list (str * str)) (pm : list PageRecord),
    fst (fold_left extract_file files (texts, pm))
    = texts ++ map (fun f => (doc_name f, text_of f)) files.
Proof.
  induction files as [|f files IH]; intros texts pm; cbn [fold_left map].
  - now rewrite app_nil_r.
  - pose proof (extract_page_fold_text (doc_name f) (doc_pages f) 1 [] pm) as H.
    unfold extract_file at 2. revert H.
    destruct (fold_left (extract_page (doc_name f)) _ _) as [text pm'].
    cbn [fst]. intros ->. rewrite IH. cbn [app].
    rewrite <- app_assoc. reflexivity.
Qed.

(** X1. [pdf_texts] has one pair for every uploaded file, in upload
    order, also for a file without any text: the file's name and the
    concatenation, over its pages with text, of a newline, [[Page n]],
    a newline and the page text. *)
Theorem extract_pdf_text_texts (uploaded_files : list Document) :
  fst (extract_pdf_text uploaded_files)
  = map (fun f => (doc_name f, text_of f)) uploaded_files
  /\ map fst (fst (extract_pdf_text uploaded_files))
     = map doc_name uploaded_files
  /\ (forall f, filter has_text (doc_pages f) = [] -> text_of f = []).
Proof.
  assert (E : fst (extract_pdf_text uploaded_files)
              = map (fun f => (doc_name f, text_of f)) uploaded_files)
    by (unfold extract_pdf_text; now rewrite extract_file_fold_text).
  split; [exact E|]. split.
  - rewrite E, map_map. reflexivity.
  - intros f H. unfold text_of, records_of.
    pose proof (page_records_length (doc_name f) (doc_pages f) 1) as L.
    rewrite H in L. destruct (page_records _ _ _); [reflexivity|discriminate].
Qed.

Lemma concat_In (A : Type) (x : list A) (l : list (list A)) :
  In x l -> exists a b, concat l = a ++ x ++ b.
Proof.
  induction l as [|y l IH]; intros H; [destruct H|].
  destruct H as [-> | H]; cbn [concat].
  - now exists [], (concat l).
  - destruct (IH H) as (a & b & ->). exists (y ++ a), b.
    now rewrite <- app_assoc.
Qed.

Lemma join_In (sep x : str) (l : list str) :
  In x l -> exists a b, join sep l = a ++ x ++ b.
Proof.
  induction l as [|y l IH]; intros H; [destruct H|].
  destruct l as [|z l].
  - destruct H as [-> | []]. exists [], []. now rewrite app_nil_r.
  - destruct H as [-> | H].
    + exists [], (sep ++ join sep (z :: l)). reflexivity.
    + destruct (IH H) as (a & b & E). exists (y ++ sep ++ a), b.
      change (join sep (y :: z :: l)) with (y ++ sep ++ join sep (z :: l)).
      rewrite E. now rewrite <- !app_assoc.
Qed.

(** X2. Every PageRecord of a run is in the prompt of that run: the
    prompt contains a newline, [[Page n]] with the record's page number,
    a newline and the record's page text, in one piece. *)
Theorem prompt_has_every_page (uploaded_files : list Document) (r : PageRecord) :
  In r (snd (extract_pdf_text uploaded_files)) ->
  exists pre post,
    build_prompt (fst (extract_pdf_text uploaded_files))
    = pre ++ (nl ++ cp "[Page " ++ Str.of_int (page_num r) ++ cp "]" ++ nl
                 ++ page_text r) ++ post.
Proof.
  intros H. unfold extract_pdf_text in *.
  rewrite extract_file_fold in H. rewrite extract_file_fold_text.
  cbn [app] in *. apply in_flat_map in H.
  destruct H as (f & Hf & Hr).
  unfold build_prompt. rewrite map_map. cbn [snd].
  assert (Ht : exists a b, text_of f = a ++ marker r ++ b).
  { unfold text_of. apply concat_In. now apply in_map. }
  destruct Ht as (a & b & Ht).
  assert (Hj : exists a b,
             join [10%N] (map (fun f => text_of f) uploaded_files)
             = a ++ text_of f ++ b).
  { apply join_In. now apply (in_map (fun f => text_of f)). }
  destruct Hj as (a' & b' & ->). rewrite Ht.
  exists (prompt_head ++ a' ++ a), (b ++ b').
  unfold marker. repeat (first [rewrite <- app_assoc | progress cbn [app]]).
  reflexivity.
Qed.

End TextFacts.

(* ================================================================== *)
(** ** [call_gemini_api]: the other replies *)

Section ClientMore.

Import BlueBook Spec Shape.

Lemma first_text_text_part (v body : pyval) :
  text_part v body -> first_text body = Ok v.
Proof.
  intros [d c ct part l l' H1 H2 H3 H4]. unfold first_text.
  cbn [py_get bind]. rewrite H1. cbn [py_first py_get bind].
  rewrite H2. cbn [py_get bind]. rewrite H3. cbn [py_first py_get bind].
  now rewrite H4.
Qed.

Lemma raise_for_status_passes (status_code : Z) :
  passes status_code -> raise_for_status status_code = Ok tt.
Proof.
  intros H. unfold raise_for_status.
  replace ((400 <=? status_code) && (status_code <? 600))%Z with false;
    [reflexivity|].
  symmetry. apply andb_false_iff.
  destruct H; [left; apply Z.leb_gt | right; apply Z.ltb_ge]; lia.
Qed.

(** X3. After a response with a passing status whose JSON body holds a
    value at [candidates[0].content.parts[0].text], the Model Client
    returns that value as it is, a string or not (JSON [null] comes
    back as [None]), and shows no error. *)
Theorem call_gemini_api_text (net : network) (api_key prompt : str)
  (status_code : Z) (body v : pyval) :
  net (request_url api_key) request_headers (request_data prompt)
  = Response status_code (Some body) ->
  passes status_code ->
  text_part v body ->
  call_gemini_api net api_key prompt
  = ([Ev_post (request_url api_key) request_headers (request_data prompt)],
     Ok v).
Proof.
  intros Hnet Hst Hbody. rewrite call_gemini_api_log, Hnet. cbv zeta.
  cbn [read_reply]. rewrite raise_for_status_passes by assumption.
  cbn [bind]. now rewrite (first_text_text_part Hbody).
Qed.

(** X4. After a response with a passing status whose JSON body is not
    an object (a list, a string, a number, a boolean or [null]), the
    Model Client shows an error for the [AttributeError] of [.get] and
    returns [None]. *)
Theorem call_gemini_api_not_object (net : network) (api_key prompt : str)
  (status_code : Z) (body : pyval) :
  net (request_url api_key) request_headers (request_data prompt)
  = Response status_code (Some body) ->
  passes status_code ->
  is_dict body = false ->
  call_gemini_api net api_key prompt
  = ([Ev_post (request_url api_key) request_headers (request_data prompt);
      Ev_error_exn (cp "Error calling Gemini API: ") AttributeError],
     Ok PyNone).
Proof.
  intros Hnet Hst Hbody. rewrite call_gemini_api_log, Hnet. cbv zeta.
  cbn [read_reply]. rewrite raise_for_status_passes by assumption.
  destruct body; try discriminate; reflexivity.
Qed.

(** X5. Every call of the Model Client sends exactly one request, the
    first thing it does, to the fixed URL followed by [?key=] and the
    API key, with the prompt as the only text part; whatever comes
    back, it shows at most one error after it. *)
Theorem call_gemini_api_one_request (net : network) (api_key prompt : str) :
  exists tail,
    fst (call_gemini_api net api_key prompt)
    = Ev_post (url ++ cp "?key=" ++ api_key)
        (PyDict [(cp "Content-Type", PyStr (cp "application/json"))])
        (PyDict [(cp "contents",
                  PyList [PyDict [(cp "parts",
                                   PyList [PyDict [(cp "text",
                                                    PyStr prompt)]])]])])
      :: tail
    /\ filter is_post tail = []
    /\ (length tail <= 1)%nat.
Proof.
  rewrite call_gemini_api_log. cbv zeta.
  destruct (read_reply _); eexists; (split; [reflexivity|]); split;
    cbn; auto.
Qed.

End ClientMore.

(* ================================================================== *)
(** ** [parse_gemini_response]: replies that are not strings *)

Section ParseMore.

Import Re BlueBook Spec Shape.

(** X6. On a response that is not a string the Field Extractor returns
    [None] when the response is false as a condition ([None], [0],
    [False], an empty list or dict) and raises [TypeError] otherwise:
    the first [re.search] refuses it. *)
Theorem parse_not_a_string (U : Unicode) (response : pyval)
  (page_mappings : list PageRecord) :
  is_str response = false ->
  parse_gemini_response U response page_mappings
  = if truthy response then Raise TypeError else Ok PyNone.
Proof.
  unfold parse_gemini_response. intros Hs.
  destruct (truthy response) eqn:T; cbn [negb]; [|reflexivity].
  destruct response; try discriminate; reflexivity.
Qed.

End ParseMore.

(* ================================================================== *)
(** ** The pipeline *)

Section PipelineFacts.

Import Re BlueBook Spec Shape.

Variable U : Unicode.

Lemma guard_true (A : Type) (uploaded_files : list A) (api_key : str) :
  uploaded_files <> [] -> api_key <> [] ->
  negb (length uploaded_files =? 0) && truthy (PyStr api_key) = true.
Proof.
  intros Hf Hk. destruct uploaded_files; [contradiction|].
  destruct api_key; [contradiction|]. reflexivity.
Qed.

(** The run after the API call, case by case. *)
Lemma analyze_after_call (net : network) (uploaded_files : list Document)
  (api_key : str) (log : list event) (v : pyval) :
  uploaded_files <> [] -> api_key <> [] ->
  call_gemini_api net api_key (prompt_of uploaded_files) = (log, Ok v) ->
  analyze U net uploaded_files api_key true
  = if truthy v then
      match parse_gemini_response U v (snd (extract_pdf_text uploaded_files)) with
      | Raise e => (log ++ [Ev_parse v], Raise e)
      | Ok result =>
          if truthy result
          then (log ++ Ev_parse v :: fst (show_result result),
                snd (show_result result))
          else (log ++ [Ev_parse v;
                        Ev_error (cp "Could not parse the analysis results.")],
                Ok tt)
      end
    else (log ++ [Ev_error (cp "Failed to get a valid response from the Gemini API.")],
          Ok tt).
Proof.
  intros Hf Hk Hc. unfold analyze. rewrite guard_true by assumption.
  unfold prompt_of in Hc.
  destruct (extract_pdf_text uploaded_files) as [texts pm]. cbn [fst snd] in *.
  rewrite Hc. cbn [io_bind].
  destruct (truthy v); [|reflexivity].
  cbn [emit io_bind lift app].
  destruct (parse_gemini_response U v pm) as [result|e].
  - destruct (truthy result).
    + destruct (show_result result) as [l r]. cbn [fst snd app].
      reflexivity.
    + reflexivity.
  - reflexivity.
Qed.

(** X7. When the Model Client comes back with a value that is false as
    a condition, [None] after an error but also the empty string that a
    missing key gives, the run shows [Failed to get a valid response
    from the Gemini API.] and ends: the Field Extractor is not entered
    and nothing else is drawn. *)
Theorem analyze_falsy_response (net : network)
  (uploaded_files : list Document) (api_key : str) (log : list event)
  (v : pyval) :
  uploaded_files <> [] -> api_key <> [] ->
  call_gemini_api net api_key
    (build_prompt (fst (extract_pdf_text uploaded_files))) = (log, Ok v) ->
  truthy v = false ->
  analyze U net uploaded_files api_key true
  = (log ++ [Ev_error (cp "Failed to get a valid response from the Gemini API.")],
     Ok tt).
Proof.
  intros Hf Hk Hc Hv. rewrite (analyze_after_call _ Hf Hk Hc). now rewrite Hv.
Qed.

(** X8. When the Model Client comes back with a string that contains
    [Trade:], the run enters the Field Extractor and stops there with an
    uncaught [TypeError]: no result is drawn. The same happens for any
    value that is true as a condition and not a string. *)
Theorem analyze_raises (net : network) (uploaded_files : list Document)
  (api_key : str) (log : list event) (v : pyval) :
  uploaded_files <> [] -> api_key <> [] ->
  call_gemini_api net api_key
    (build_prompt (fst (extract_pdf_text uploaded_files))) = (log, Ok v) ->
  match v with
  | PyStr reply => Str.contains (cp "Trade:") reply = true
  | _ => truthy v = true
  end ->
  analyze U net uploaded_files api_key true
  = (log ++ [Ev_parse v], Raise TypeError).
Proof.
  intros Hf Hk Hc Hv. rewrite (analyze_after_call _ Hf Hk Hc).
  assert (T : truthy v = true).
  { destruct v; try exact Hv. destruct s; [discriminate|reflexivity]. }
  rewrite T.
  assert (P : parse_gemini_response U v (snd (extract_pdf_text uploaded_files))
              = Raise TypeError).
  { destruct v as [| | | |reply| | |];
      try (unfold parse_gemini_response; rewrite T; reflexivity).
    rewrite parse_gemini_response_str. destruct reply; [discriminate|].
    now rewrite Hv. }
  now rewrite P.
Qed.

Lemma entities_name_get (reply : str) (key : str) :
  In key name_keys ->
  exists v, Dict.get key (entities U reply) = Some (PyStr v).
Proof.
  intros Hk. unfold entities, patterns. cbn [fold_left].
  destruct Hk as [<- | [<- | [<- | [<- | []]]]];
    repeat (rewrite get_update_other by reflexivity);
    rewrite get_update_same;
    match goal with
    | |- context [captured U ?r reply] => destruct (captured U r reply)
    end; eauto;
    repeat (rewrite get_update_other by reflexivity); eexists; reflexivity.
Qed.

Lemma entities_other_get (reply : str) :
  Dict.get (cp "trades") (entities U reply) = Some (PyDict [])
  /\ Dict.get (cp "project_start_date") (entities U reply) = Some (PyStr [])
  /\ Dict.get (cp "project_end_date") (entities U reply) = Some (PyStr []).
Proof.
  unfold entities, patterns. cbn [fold_left].
  repeat split; repeat (rewrite get_update_other by reflexivity); reflexivity.
Qed.

Lemma field_item (reply : str) (key : string) (v : pyval) :
  Dict.get (cp key) (entities U reply) = Some v ->
  py_item (PyDict (entities U reply)) (cp key) = Ok (field U reply key).
Proof. intros H. unfold py_item, field. now rewrite H. Qed.

(** What is drawn for a result that the Field Extractor returned. *)
Lemma show_result_entities (reply : str) :
  show_result (PyDict (entities U reply))
  = ([ Ev_subheader (cp "Analysis Results");
       Ev_write (cp "**Contractor**: ") (field U reply "contractor");
       Ev_write (cp "**Architect**: ") (field U reply "architect");
       Ev_write (cp "**Designer**: ") (field U reply "designer");
       Ev_write (cp "**Client**: ") (field U reply "client");
       Ev_write (cp "**Project Start Date**: ") (PyStr []);
       Ev_write (cp "**Project End Date**: ") (PyStr []);
       Ev_subheader (cp "Trades and Resources") ],
     Ok tt).
Proof.
  destruct (entities_other_get reply) as (Ht & Hs & He).
  destruct (entities_name_get reply (key := cp "contractor")) as [v1 H1];
    [cbn; tauto|].
  destruct (entities_name_get reply (key := cp "architect")) as [v2 H2];
    [cbn; tauto|].
  destruct (entities_name_get reply (key := cp "designer")) as [v3 H3];
    [cbn; tauto|].
  destruct (entities_name_get reply (key := cp "client")) as [v4 H4];
    [cbn; tauto|].
  unfold show_result, write_field.
  rewrite (field_item reply "contractor" H1), (field_item reply "architect" H2),
    (field_item reply "designer" H3), (field_item reply "client" H4).
  unfold py_item. rewrite Ht, Hs, He.
  reflexivity.
Qed.

Lemma entities_truthy (reply : str) : truthy (PyDict (entities U reply)) = true.
Proof.
  destruct (entities_other_get reply) as (Ht & _).
  cbn [truthy]. destruct (entities U reply); [discriminate|reflexivity].
Qed.

(** X9. When the Model Client comes back with a non-empty string without
    [Trade:], the run draws the result and ends: the two headers and six
    lines, of which the four names are the fields of the result and the
    two project dates are always empty, and no trade. *)
Theorem analyze_shows_result (net : network) (uploaded_files : list Document)
  (api_key : str) (log : list event) (reply : str) :
  uploaded_files <> [] -> api_key <> [] ->
  call_gemini_api net api_key
    (build_prompt (fst (extract_pdf_text uploaded_files)))
  = (log, Ok (PyStr reply)) ->
  reply <> [] ->
  Str.contains (cp "Trade:") reply = false ->
  analyze U net uploaded_files api_key true
  = (log ++
     [ Ev_parse (PyStr reply);
       Ev_subheader (cp "Analysis Results");
       Ev_write (cp "**Contractor**: ") (field U reply "contractor");
       Ev_write (cp "**Architect**: ") (field U reply "architect");
       Ev_write (cp "**Designer**: ") (field U reply "designer");
       Ev_write (cp "**Client**: ") (field U reply "client");
       Ev_write (cp "**Project Start Date**: ") (PyStr []);
       Ev_write (cp "**Project End Date**: ") (PyStr []);
       Ev_subheader (cp "Trades and Resources") ],
     Ok tt).
Proof.
  intros Hf Hk Hc Hr Ht. rewrite (analyze_after_call _ Hf Hk Hc).
  rewrite parse_gemini_response_str.
  destruct reply as [|c reply]; [contradiction|].
  rewrite Ht. change (truthy (PyStr (c :: reply))) with true. cbv iota.
  rewrite entities_truthy, show_result_entities. reflexivity.
Qed.




End PipelineFacts.

(* ================================================================== *)
(** ** The keys of a returned result *)

Section KeyFacts.

Import Re BlueBook Spec Shape.

Variable U : Unicode.

(** X12. A result that the Field Extractor returns has the seven keys
    of lines 59-67, in that order, followed by [start_date] when the
    start-date pattern matched and by [end_date] when the end-date
    pattern matched, and no other key; so the lookups of lines 144-152
    find their keys. *)
Theorem returned_result_keys (reply : str) (page_mappings : list PageRecord)
  (d : Dict.t) :
  parse_gemini_response U (PyStr reply) page_mappings = Ok (PyDict d) ->
  map fst d
  = result_keys ++ added_key U "start_date" start_date_pattern reply
                ++ added_key U "end_date" end_date_pattern reply.
Proof.
  rewrite parse_gemini_response_str.
  destruct reply as [|c0 reply0]; [discriminate|].
  set (reply := c0 :: reply0).
  destruct (Str.contains (cp "Trade:") reply); [discriminate|].
  intros H. injection H as <-.
  unfold entities, patterns, update, added_key, start_date_pattern,
    end_date_pattern.
  cbn [fold_left fst snd].
  repeat match goal with
         | |- context [captured U ?r reply] => destruct (captured U r reply)
         end; reflexivity.
Qed.

End KeyFacts.

(* ================================================================== *)
(** ** The segmentation of line 86 *)

Section SegmentFacts.

Import Re BlueBook Spec Shape.

Variable U : Unicode.

Lemma run_lookahead (fl : flags) (a : regex) k s :
  run U fl (Lookahead a) k s
  = match run U fl a (@Some mstate) s with
    | Some s' => k {| rest := rest s; groups := groups s' |}
    | None => None
    end.
Proof. reflexivity. Qed.

Lemma run_dollar (fl : flags) k s :
  run U fl Dollar k s = if at_end (rest s) then k s else None.
Proof. reflexivity. Qed.
















End SegmentFacts.

(* ================================================================== *)
(** ** The date tokens *)

Section DateFacts.

Import Re BlueBook Spec Shape.

Variable U : Unicode.









End DateFacts.

(* ================================================================== *)
(** ** Case folding *)

Section FoldFacts.

Import Re BlueBook Spec Shape.

Variable U : Unicode.

Lemma upper_range (c : N) :
  Str.is_ascii_upper c = true <-> (65 <= c <= 90)%N.
Proof.
  unfold Str.is_ascii_upper. rewrite andb_true_iff, !N.leb_le. tauto.
Qed.

Lemma lower_range (c : N) :
  Str.is_ascii_lower c = true <-> (97 <= c <= 122)%N.
Proof.
  unfold Str.is_ascii_lower. rewrite andb_true_iff, !N.leb_le. tauto.
Qed.

Lemma cased_cases (c : N) :
  cased c = true <->
  ((65 <= c <= 90) \/ (97 <= c <= 122) \/ c = 304 \/ c = 8490)%N.
Proof.
  unfold cased. rewrite !orb_true_iff, upper_range, lower_range, !N.eqb_eq.
  tauto.
Qed.

Lemma sre_lower_cases (c : N) :
  ((65 <= c <= 90)%N /\ sre_lower c = (c + 32)%N)
  \/ (c = 304%N /\ sre_lower c = 105%N)
  \/ (c = 8490%N /\ sre_lower c = 107%N)
  \/ (~ (65 <= c <= 90)%N /\ c <> 304%N /\ c <> 8490%N /\ sre_lower c = c).
Proof.
  unfold sre_lower. destruct (Str.is_ascii_upper c) eqn:E.
  - left. apply upper_range in E. auto.
  - assert (~ (65 <= c <= 90)%N)
      by (intros H; apply upper_range in H; congruence).
    destruct (N.eqb_spec c 304); [right; left; auto|].
    destruct (N.eqb_spec c 8490); [right; right; left; auto|].
    right; right; right. auto.
Qed.

(** Two characters with the same lower case are equal or both cased. *)
Lemma same_lower (c c' : N) :
  sre_lower c = sre_lower c' -> c = c' \/ (cased c = true /\ cased c' = true).
Proof.
  intros H. rewrite !cased_cases.
  destruct (sre_lower_cases c) as [[R E] | [[R E] | [[R E] | (R1 & R2 & R3 & E)]]];
    destruct (sre_lower_cases c')
      as [[R' E'] | [[R' E'] | [[R' E'] | (R1' & R2' & R3' & E')]]];
    rewrite E, E' in H; lia.
Qed.

Lemma isspace_cases (c : N) :
  Str.isspace c = true ->
  (c <= 32 \/ c = 133 \/ c = 160 \/ c = 5760 \/ (8192 <= c <= 8202)
   \/ c = 8232 \/ c = 8233 \/ c = 8239 \/ c = 8287 \/ c = 12288)%N.
Proof.
  unfold Str.isspace.
  rewrite !orb_true_iff, !andb_true_iff, !N.leb_le, !N.eqb_eq. lia.
Qed.

Lemma cased_not_space (c : N) : cased c = true -> Str.isspace c = false.
Proof.
  intros H. apply cased_cases in H.
  destruct (Str.isspace c) eqn:E; [|reflexivity].
  apply isspace_cases in E. lia.
Qed.

Lemma same_lower_space (c c' : N) :
  sre_lower c = sre_lower c' -> Str.isspace c = Str.isspace c'.
Proof.
  intros H. destruct (same_lower _ _ H) as [-> | [A B]]; [reflexivity|].
  now rewrite (cased_not_space _ A), (cased_not_space _ B).
Qed.

Lemma same_lower_newline (c c' : N) :
  sre_lower c = sre_lower c' -> (c =? 10)%N = (c' =? 10)%N.
Proof.
  intros H. destruct (same_lower _ _ H) as [-> | [A B]]; [reflexivity|].
  apply cased_cases in A. apply cased_cases in B.
  destruct (N.eqb_spec c 10), (N.eqb_spec c' 10); try reflexivity; lia.
Qed.

Lemma item_fold (i : item) (c c' : N) :
  digit_free_item i = true -> sre_lower c = sre_lower c' ->
  item_ok U IGNORECASE i c = item_ok U IGNORECASE i c'.
Proof.
  intros D H. destruct i; try discriminate; cbn [item_ok ignorecase IGNORECASE].
  - unfold lit_ok. now rewrite H.
  - unfold range_ok. now rewrite H.
  - now apply same_lower_space.
Qed.

Lemma atom_fold (a : atom) (c c' : N) :
  digit_free_atom a = true -> sre_lower c = sre_lower c' ->
  atom_ok U IGNORECASE a c = atom_ok U IGNORECASE a c'.
Proof.
  intros D H. destruct a; try discriminate;
    cbn [atom_ok ignorecase dotall IGNORECASE orb].
  - unfold lit_ok. now rewrite H.
  - now rewrite (same_lower_newline _ _ H).
  - now apply same_lower_space.
  - f_equal. cbn [digit_free_atom] in D.
    induction items as [|i items IH]; [reflexivity|].
    cbn [forallb] in D. apply andb_prop in D. destruct D as [D1 D2].
    cbn [existsb]. now rewrite (@item_fold i c c' D1 H), IH.
Qed.

Lemma same_fold_length (a b : str) : same_fold a b -> length a = length b.
Proof.
  unfold same_fold. intros H. apply (f_equal (@length N)) in H.
  now rewrite !length_map in H.
Qed.

Lemma same_fold_firstn (n : nat) (a b : str) :
  same_fold a b -> same_fold (firstn n a) (firstn n b).
Proof. unfold same_fold. intros H. now rewrite <- !firstn_map, H. Qed.

Lemma same_fold_at_end (a b : str) : same_fold a b -> at_end a = at_end b.
Proof.
  unfold same_fold. intros H.
  destruct a as [|c [|d a]], b as [|c' [|d' b]]; try discriminate;
    try reflexivity.
  cbn in H. injection H as H. cbn [at_end]. now apply same_lower_newline.
Qed.

Lemma capture_fold (n : nat) (s s' s1 s1' : mstate) :
  state_fold s s' -> state_fold s1 s1' ->
  state_fold (capture n s s1) (capture n s' s1').
Proof.
  intros [R G] [R1 G1]. split; [exact R1|].
  cbn [capture groups]. constructor; [|exact G1].
  cbn [fst snd]. split; [reflexivity|]. unfold consumed.
  rewrite (same_fold_length R), (same_fold_length R1).
  now apply same_fold_firstn.
Qed.

Lemma star_loop_fold
  (step step' : (mstate -> option mstate) -> mstate -> option mstate)
  (Hstep : forall k k',
      (forall s s', state_fold s s' -> opt_fold (k s) (k' s')) ->
      forall s s', state_fold s s' -> opt_fold (step k s) (step' k' s'))
  (g : bool) (k k' : mstate -> option mstate)
  (Hk : forall s s', state_fold s s' -> opt_fold (k s) (k' s')) :
  forall fuel s s',
    state_fold s s' ->
    opt_fold (star_loop step g k fuel s) (star_loop step' g k' fuel s').
Proof.
  induction fuel as [|fuel IH]; intros s s' R; cbn [star_loop].
  - now apply Hk.
  - assert (Again :
             opt_fold
               (step (fun s1 => if length (rest s1) <? length (rest s)
                                then star_loop step g k fuel s1 else None) s)
               (step' (fun s1 => if length (rest s1) <? length (rest s')
                                 then star_loop step' g k' fuel s1 else None) s')).
    { apply Hstep; [|exact R]. intros s1 s1' R1.
      rewrite (same_fold_length (proj1 R)), (same_fold_length (proj1 R1)).
      destruct (length (rest s1') <? length (rest s')); [now apply IH | exact I]. }
    specialize (Hk _ _ R).
    destruct g; cbn [orelse].
    + destruct (step _ s), (step' _ s'); cbn [opt_fold orelse] in *;
        try contradiction; auto.
    + destruct (k s), (k' s'); cbn [opt_fold orelse] in *;
        try contradiction; auto.
Qed.

(** Under [IGNORECASE] a pattern without [\d] runs the same way on two
    texts that are the same up to case. *)
Lemma run_fold (r : regex) :
  digit_free r = true ->
  forall k k',
    (forall s s', state_fold s s' -> opt_fold (k s) (k' s')) ->
    forall s s', state_fold s s' ->
                 opt_fold (run U IGNORECASE r k s) (run U IGNORECASE r k' s').
Proof.
  induction r as [|a|a IHa b IHb|a IHa b IHb|g a IHa|n a IHa|a IHa|];
    cbn [digit_free]; intros D k k' Hk s s' R.
  - now apply Hk.
  - rewrite !run_atom. destruct R as [R G].
    destruct (rest s) as [|c t], (rest s') as [|c' t']; try discriminate;
      [exact I|].
    unfold same_fold in R. cbn [map] in R. injection R as Rc Rt.
    rewrite (@atom_fold a c c' D Rc).
    destruct (atom_ok U IGNORECASE a c'); [|exact I].
    apply Hk. split; assumption.
  - apply andb_prop in D. destruct D as [Da Db]. rewrite !run_seq.
    apply IHa; auto.
  - apply andb_prop in D. destruct D as [Da Db]. rewrite !run_alt.
    pose proof (IHa Da k k' Hk s s' R) as A.
    pose proof (IHb Db k k' Hk s s' R) as B.
    destruct (run U IGNORECASE a k s), (run U IGNORECASE a k' s');
      cbn [opt_fold orelse] in *; try contradiction; auto.
  - rewrite !run_star. rewrite (same_fold_length (proj1 R)).
    apply star_loop_fold; auto.
  - rewrite !run_group. apply IHa; auto.
    intros s1 s1' R1. apply Hk. now apply capture_fold.
  - rewrite !run_lookahead.
    assert (A : opt_fold (run U IGNORECASE a (@Some mstate) s)
                         (run U IGNORECASE a (@Some mstate) s'))
      by (apply IHa; auto).
    destruct (run U IGNORECASE a (@Some mstate) s) as [x|],
             (run U IGNORECASE a (@Some mstate) s') as [x'|];
      cbn [opt_fold] in A; try contradiction; [|exact I].
    apply Hk. destruct R as [R G], A as [_ Gx]. split; assumption.
  - rewrite !run_dollar. rewrite (same_fold_at_end (proj1 R)).
    destruct (at_end (rest s')); [now apply Hk | exact I].
Qed.

Lemma scan_fold (r : regex) (D : digit_free r = true) :
  forall s s', same_fold s s' ->
               opt_fold (scan U IGNORECASE r s) (scan U IGNORECASE r s').
Proof.
  assert (M : forall s s', same_fold s s' ->
                           opt_fold (match_at U IGNORECASE r s)
                                    (match_at U IGNORECASE r s')).
  { intros s s' R. unfold match_at. apply run_fold; auto.
    split; [exact R | constructor]. }
  induction s as [|c s IH]; intros [|c' s'] R; try discriminate;
    specialize (M _ _ R); cbn [scan].
  - destruct (match_at U IGNORECASE r []), (match_at U IGNORECASE r []);
      cbn [opt_fold] in *; auto.
  - unfold same_fold in R. cbn [map] in R. injection R as _ R.
    specialize (IH s' R).
    destruct (match_at U IGNORECASE r (c :: s)),
             (match_at U IGNORECASE r (c' :: s'));
      cbn [opt_fold] in *; try contradiction; auto.
Qed.

Lemma lstrip_fold (a b : str) :
  same_fold a b -> same_fold (Str.lstrip a) (Str.lstrip b).
Proof.
  revert b. induction a as [|c a IH]; intros [|c' b] R; try discriminate;
    [exact R|].
  pose proof R as R'. unfold same_fold in R'. cbn [map] in R'.
  injection R' as Rc Rt. cbn [Str.lstrip].
  rewrite (same_lower_space _ _ Rc).
  destruct (Str.isspace c'); [now apply IH | exact R].
Qed.

Lemma rev_fold (a b : str) : same_fold a b -> same_fold (rev a) (rev b).
Proof. unfold same_fold. intros H. now rewrite !map_rev, H. Qed.

Lemma strip_fold (a b : str) :
  same_fold a b -> same_fold (Str.strip a) (Str.strip b).
Proof.
  intros R. unfold Str.strip, Str.rstrip.
  now apply rev_fold, lstrip_fold, rev_fold, lstrip_fold.
Qed.

Lemma captured_fold (r : regex) (D : digit_free r = true) (s s' : str) :
  same_fold s s' ->
  match captured U r s, captured U r s' with
  | Some g, Some g' => same_fold g g'
  | None, None => True
  | _, _ => False
  end.
Proof.
  intros R. unfold captured. pose proof (@scan_fold r D s s' R) as S.
  destruct (scan U IGNORECASE r s) as [m|], (scan U IGNORECASE r s') as [m'|];
    cbn [opt_fold] in S; try contradiction; [|exact I].
  destruct S as [_ G]. clear R.
  induction G as [|[i g] [i' g'] gs gs' [Hi Hg] G IH]; [exact I|].
  cbn [fst snd] in *. subst i'. cbn [group_of].
  destruct (Nat.eqb i 1); [exact Hg | exact IH].
Qed.

Lemma entities_name_captured (key : str) :
  In key name_keys ->
  exists r,
    digit_free r = true
    /\ forall reply,
        Dict.get key (entities U reply)
        = Some (PyStr (match captured U r reply with
                       | Some g => Str.strip g
                       | None => []
                       end)).
Proof.
  intros Hk.
  assert (Key : forall r : regex,
             digit_free r = true ->
             (forall reply,
                 Dict.get key (entities U reply)
                 = match captured U r reply with
                   | Some g => Some (PyStr (Str.strip g))
                   | None => Some (PyStr [])
                   end) ->
             exists r,
               digit_free r = true
               /\ forall reply,
                   Dict.get key (entities U reply)
                   = Some (PyStr (match captured U r reply with
                                  | Some g => Str.strip g
                                  | None => []
                                  end))).
  { intros r D G. exists r. split; [exact D|]. intros reply. rewrite G.
    now destruct (captured U r reply). }
  destruct Hk as [<- | [<- | [<- | [<- | []]]]].
  - apply (Key (Seq (Alt (lit "Contractor") (lit "Builder")) name_tail) eq_refl).
    intros reply. unfold entities, patterns. cbn [fold_left].
    repeat (rewrite get_update_other by reflexivity). rewrite get_update_same.
    reflexivity.
  - apply (Key (Seq (lit "Architect") name_tail) eq_refl).
    intros reply. unfold entities, patterns. cbn [fold_left].
    repeat (rewrite get_update_other by reflexivity). rewrite get_update_same.
    destruct (captured U _ reply); [reflexivity|].
    repeat (rewrite get_update_other by reflexivity). reflexivity.
  - apply (Key (Seq (lit "Designer") name_tail) eq_refl).
    intros reply. unfold entities, patterns. cbn [fold_left].
    repeat (rewrite get_update_other by reflexivity). rewrite get_update_same.
    destruct (captured U _ reply); [reflexivity|].
    repeat (rewrite get_update_other by reflexivity). reflexivity.
  - apply (Key (Seq (Alt (lit "Client") (lit "Owner")) name_tail) eq_refl).
    intros reply. unfold entities, patterns. cbn [fold_left].
    repeat (rewrite get_update_other by reflexivity). rewrite get_update_same.
    destruct (captured U _ reply); [reflexivity|].
    repeat (rewrite get_update_other by reflexivity). reflexivity.
Qed.

(** X15. Case does not matter to the four name fields: when two replies
    are the same up to case (each character equal or differing only as
    a case variant that [IGNORECASE] folds to ASCII), and the Field
    Extractor returns a result for both, each name field of one result
    is the same up to case as that field of the other; the labels match
    in any case, and the captured name keeps the case it has. *)
Theorem name_fields_case_fold (reply reply' : str)
  (page_mappings page_mappings' : list PageRecord) (d d' : Dict.t) (key : str) :
  map sre_lower reply = map sre_lower reply' ->
  In key name_keys ->
  parse_gemini_response U (PyStr reply) page_mappings = Ok (PyDict d) ->
  parse_gemini_response U (PyStr reply') page_mappings' = Ok (PyDict d') ->
  exists v v',
    Dict.get key d = Some (PyStr v) /\ Dict.get key d' = Some (PyStr v')
    /\ map sre_lower v = map sre_lower v'.
Proof.
  intros R Hk. rewrite !parse_gemini_response_str.
  destruct reply as [|c0 reply0]; [discriminate|].
  destruct reply' as [|c0' reply0']; [discriminate|].
  set (reply := c0 :: reply0) in *. set (reply' := c0' :: reply0') in *.
  destruct (Str.contains (cp "Trade:") reply); [discriminate|].
  destruct (Str.contains (cp "Trade:") reply'); [discriminate|].
  intros H H'. injection H as <-. injection H' as <-.
  destruct (entities_name_captured Hk) as (r & D & G).
  rewrite (G reply), (G reply').
  pose proof (@captured_fold r D reply reply' R) as C.
  destruct (captured U r reply) as [g|], (captured U r reply') as [g'|];
    try contradiction.
  - exists (Str.strip g), (Str.strip g').
    split; [reflexivity|]. split; [reflexivity|]. now apply strip_fold.
  - exists [], []. auto.
Qed.

End FoldFacts.

(* ================================================================== *)
(** ** Further instances *)

Section MoreInstances.

Import Re BlueBook Spec Shape.

(** The page of a one-page upload is in the prompt. *)
Lemma prompt_has_every_page_witness :
  In one_page_record (snd (extract_pdf_text [one_page_file]))
  /\ exists pre post,
      build_prompt (fst (extract_pdf_text [one_page_file]))
      = pre ++ (nl ++ cp "[Page " ++ Str.of_int (page_num one_page_record)
                   ++ cp "]" ++ nl ++ page_text one_page_record) ++ post.
Proof.
  assert (H : In one_page_record (snd (extract_pdf_text [one_page_file])))
    by (left; reflexivity).
  split; [exact H|].
  exact (@prompt_has_every_page [one_page_file] one_page_record H).
Defined.

(** A body with a text part. *)
Lemma call_gemini_api_text_witness :
  answers (PyStr reply_jane) (request_url (cp "key")) request_headers
    (request_data (cp "prompt"))
  = Response 200 (Some (body_text (PyStr reply_jane)))
  /\ passes 200
  /\ text_part (PyStr reply_jane) (body_text (PyStr reply_jane))
  /\ call_gemini_api (answers (PyStr reply_jane)) (cp "key") (cp "prompt")
     = ([Ev_post (request_url (cp "key")) request_headers
           (request_data (cp "prompt"))],
        Ok (PyStr reply_jane)).
Proof.
  assert (P : passes 200) by (left; reflexivity).
  assert (T : text_part (PyStr reply_jane) (body_text (PyStr reply_jane)))
    by (eapply text_part_intro; reflexivity).
  split; [reflexivity|]. split; [exact P|]. split; [exact T|].
  exact (@call_gemini_api_text (answers (PyStr reply_jane)) (cp "key")
           (cp "prompt") 200%Z _ _ eq_refl P T).
Defined.

(** A body that is a list. *)
Lemma call_gemini_api_not_object_witness :
  always (Response 200 (Some (PyList []))) (request_url (cp "key"))
    request_headers (request_data (cp "prompt"))
  = Response 200 (Some (PyList []))
  /\ passes 200
  /\ is_dict (PyList []) = false
  /\ call_gemini_api (always (Response 200 (Some (PyList [])))) (cp "key")
       (cp "prompt")
     = ([Ev_post (request_url (cp "key")) request_headers
           (request_data (cp "prompt"));
         Ev_error_exn (cp "Error calling Gemini API: ") AttributeError],
        Ok PyNone).
Proof.
  assert (P : passes 200) by (left; reflexivity).
  split; [reflexivity|]. split; [exact P|]. split; [reflexivity|].
  exact (@call_gemini_api_not_object (always (Response 200 (Some (PyList []))))
           (cp "key") (cp "prompt") 200%Z (PyList []) eq_refl P eq_refl).
Defined.

(** The number 5 as a response. *)
Lemma parse_not_a_string_witness :
  is_str (PyInt 5) = false
  /\ parse_gemini_response ascii_tables (PyInt 5) []
     = if truthy (PyInt 5) then Raise TypeError else Ok PyNone.
Proof.
  split; [reflexivity|].
  exact (@parse_not_a_string ascii_tables (PyInt 5) [] eq_refl).
Defined.

(** A body without a text: the empty string comes back and the run
    reports a failure. *)
Lemma analyze_falsy_response_witness :
  [one_page_file] <> [] /\ cp "key" <> []
  /\ call_gemini_api (always (Response 200 (Some body_no_text))) (cp "key")
       (build_prompt (fst (extract_pdf_text [one_page_file])))
     = ([post_of (cp "key") (prompt_of [one_page_file])], Ok (PyStr []))
  /\ truthy (PyStr []) = false
  /\ analyze ascii_tables (always (Response 200 (Some body_no_text)))
       [one_page_file] (cp "key") true
     = ([post_of (cp "key") (prompt_of [one_page_file])]
        ++ [Ev_error (cp "Failed to get a valid response from the Gemini API.")],
        Ok tt).
Proof.
  assert (F : [one_page_file] <> []) by discriminate.
  assert (K : cp "key" <> []) by discriminate.
  assert (C : call_gemini_api (always (Response 200 (Some body_no_text)))
                (cp "key")
                (build_prompt (fst (extract_pdf_text [one_page_file])))
              = ([post_of (cp "key") (prompt_of [one_page_file])],
                 Ok (PyStr [])))
    by reflexivity.
  split; [exact F|]. split; [exact K|]. split; [exact C|].
  split; [reflexivity|].
  exact (@analyze_falsy_response ascii_tables _ _ _ _ _ F K C eq_refl).
Defined.

(** A reply with a trade: the run stops with [TypeError]. *)
Lemma analyze_raises_witness :
  [one_page_file] <> [] /\ cp "key" <> []
  /\ call_gemini_api (answers (PyStr chunk_electrical)) (cp "key")
       (build_prompt (fst (extract_pdf_text [one_page_file])))
     = ([post_of (cp "key") (prompt_of [one_page_file])],
        Ok (PyStr chunk_electrical))
  /\ Str.contains (cp "Trade:") chunk_electrical = true
  /\ analyze ascii_tables (answers (PyStr chunk_electrical))
       [one_page_file] (cp "key") true
     = ([post_of (cp "key") (prompt_of [one_page_file])]
        ++ [Ev_parse (PyStr chunk_electrical)],
        Raise TypeError).
Proof.
  assert (F : [one_page_file] <> []) by discriminate.
  assert (K : cp "key" <> []) by discriminate.
  assert (C : call_gemini_api (answers (PyStr chunk_electrical)) (cp "key")
                (build_prompt (fst (extract_pdf_text [one_page_file])))
              = ([post_of (cp "key") (prompt_of [one_page_file])],
                 Ok (PyStr chunk_electrical)))
    by reflexivity.
  assert (T : Str.contains (cp "Trade:") chunk_electrical = true)
    by reflexivity.
  split; [exact F|]. split; [exact K|]. split; [exact C|]. split; [exact T|].
  exact (@analyze_raises ascii_tables _ _ _ _ (PyStr chunk_electrical) F K C T).
Defined.

(** A reply without a trade: the result is drawn. *)
Lemma analyze_shows_result_witness :
  [one_page_file] <> [] /\ cp "key" <> []
  /\ call_gemini_api (answers (PyStr reply_jane)) (cp "key")
       (build_prompt (fst (extract_pdf_text [one_page_file])))
     = ([post_of (cp "key") (prompt_of [one_page_file])], Ok (PyStr reply_jane))
  /\ reply_jane <> []
  /\ Str.contains (cp "Trade:") reply_jane = false
  /\ analyze ascii_tables (answers (PyStr reply_jane)) [one_page_file]
       (cp "key") true
     = ([post_of (cp "key") (prompt_of [one_page_file])] ++
        [ Ev_parse (PyStr reply_jane);
          Ev_subheader (cp "Analysis Results");
          Ev_write (cp "**Contractor**: ") (field ascii_tables reply_jane "contractor");
          Ev_write (cp "**Architect**: ") (field ascii_tables reply_jane "architect");
          Ev_write (cp "**Designer**: ") (field ascii_tables reply_jane "designer");
          Ev_write (cp "**Client**: ") (field ascii_tables reply_jane "client");
          Ev_write (cp "**Project Start Date**: ") (PyStr []);
          Ev_write (cp "**Project End Date**: ") (PyStr []);
          Ev_subheader (cp "Trades and Resources") ],
        Ok tt)
  /\ field ascii_tables reply_jane "client" = PyStr (cp "Jane Doe").
Proof.
  assert (F : [one_page_file] <> []) by discriminate.
  assert (K : cp "key" <> []) by discriminate.
  assert (C : call_gemini_api (answers (PyStr reply_jane)) (cp "key")
                (build_prompt (fst (extract_pdf_text [one_page_file])))
              = ([post_of (cp "key") (prompt_of [one_page_file])],
                 Ok (PyStr reply_jane)))
    by reflexivity.
  assert (N : reply_jane <> []) by discriminate.
  assert (T : Str.contains (cp "Trade:") reply_jane = false) by reflexivity.
  split; [exact F|]. split; [exact K|]. split; [exact C|]. split; [exact N|].
  split; [exact T|]. split; [|vm_compute; reflexivity].
  exact (@analyze_shows_result ascii_tables _ _ _ _ reply_jane F K C N T).
Defined.

(** The keys after a reply with a start date. *)
Lemma returned_result_keys_witness :
  parse_gemini_response ascii_tables (PyStr reply_date) []
  = Ok (PyDict (entities ascii_tables reply_date))
  /\ map fst (entities ascii_tables reply_date)
     = result_keys
       ++ added_key ascii_tables "start_date" start_date_pattern reply_date
       ++ added_key ascii_tables "end_date" end_date_pattern reply_date
  /\ added_key ascii_tables "start_date" start_date_pattern reply_date
     = [cp "start_date"]
  /\ added_key ascii_tables "end_date" end_date_pattern reply_date = [].
Proof.
  assert (P : parse_gemini_response ascii_tables (PyStr reply_date) []
              = Ok (PyDict (entities ascii_tables reply_date)))
    by (vm_compute; reflexivity).
  split; [exact P|].
  split; [|split; vm_compute; reflexivity].
  exact (@returned_result_keys ascii_tables reply_date [] _ P).
Defined.



(** [CLIENT: Acme Corp] and [client: Acme Corp]. *)
Lemma name_fields_case_fold_witness :
  map sre_lower reply_upper = map sre_lower reply_lower
  /\ In (cp "client") name_keys
  /\ parse_gemini_response ascii_tables (PyStr reply_upper) []
     = Ok (PyDict (entities ascii_tables reply_upper))
  /\ parse_gemini_response ascii_tables (PyStr reply_lower) []
     = Ok (PyDict (entities ascii_tables reply_lower))
  /\ (exists v v',
         Dict.get (cp "client") (entities ascii_tables reply_upper)
         = Some (PyStr v)
         /\ Dict.get (cp "client") (entities ascii_tables reply_lower)
            = Some (PyStr v')
         /\ map sre_lower v = map sre_lower v')
  /\ Dict.get (cp "client") (entities ascii_tables reply_upper)
     = Some (PyStr (cp "Acme Corp"))
  /\ Dict.get (cp "client") (entities ascii_tables reply_lower)
     = Some (PyStr (cp "Acme Corp")).
Proof.
  assert (R : map sre_lower reply_upper = map sre_lower reply_lower)
    by reflexivity.
  assert (K : In (cp "client") name_keys) by (do 3 right; left; reflexivity).
  assert (P : parse_gemini_response ascii_tables (PyStr reply_upper) []
              = Ok (PyDict (entities ascii_tables reply_upper)))
    by (vm_compute; reflexivity).
  assert (P' : parse_gemini_response ascii_tables (PyStr reply_lower) []
               = Ok (PyDict (entities ascii_tables reply_lower)))
    by (vm_compute; reflexivity).
  split; [exact R|]. split; [exact K|]. split; [exact P|]. split; [exact P'|].
  split; [|split; vm_compute; reflexivity].
  exact (@name_fields_case_fold ascii_tables reply_upper reply_lower [] []
           _ _ (cp "client") R K P P').
Defined.

End MoreInstances.
